(** * Edge API Data Downloader

    A shallow embedding of [Edge_API.py], the Streamlit script that gates an
    energy-monitoring API behind a login form, builds one GET request from a
    small form and exports the answer as CSV.

    The script is one top-to-bottom run per user action.  Each block of the
    script becomes a function; the widgets' values are its inputs, and what
    the script shows, logs or sends is a trace of [ui_event]s.

    Part I holds the definitions (in the order of the script), Part II the
    lemmas and theorems. *)

From Stdlib Require Import ZArith Lia Bool List String Ascii.
From Stdlib Require Import Numbers.DecimalString.
Import ListNotations.

Open Scope string_scope.
Open Scope list_scope.

(* ================================================================= *)
(** * Part I: the embedding *)
(* ================================================================= *)

(** ** Python values the script relies on *)

(** [x in xs] for a list of strings: equality with some element. *)
Definition str_in_list (x : string) (xs : list string) : bool :=
  existsb (String.eqb x) xs.

(** [sub in s] for two strings: [sub] occurs in [s] as a substring. *)
Fixpoint str_in_str (sub s : string) : bool :=
  String.prefix sub s
  || match s with
     | EmptyString => false
     | String _ s' => str_in_str sub s'
     end.

(** Truthiness of a string: [not s] holds exactly for the empty string. *)
Definition str_truthy (s : string) : bool :=
  match s with
  | EmptyString => false
  | String _ _ => true
  end.

(** [str(n)] for an integer. *)
Definition str_of_int (n : Z) : string :=
  NilEmpty.string_of_int (Z.to_int n).

(** A Python [dict] with string keys: insertion-ordered, one entry per key.
    [d[k] = v] overwrites in place when [k] is there and appends otherwise.
    A pandas frame's column assignment [df[c] = col] behaves the same way,
    so frames reuse it. *)
Module Dict.

Definition t (V : Type) : Type := list (string * V).

Definition empty {V : Type} : t V := [].

Fixpoint get {V : Type} (k : string) (d : t V) : option V :=
  match d with
  | [] => None
  | (k', v) :: d' => if String.eqb k k' then Some v else get k d'
  end.

Fixpoint set {V : Type} (k : string) (v : V) (d : t V) : t V :=
  match d with
  | [] => [(k, v)]
  | (k', v') :: d' =>
      if String.eqb k k' then (k, v) :: d' else (k', v') :: set k v d'
  end.

Definition keys {V : Type} (d : t V) : list string := map fst d.

Definition mem {V : Type} (k : string) (d : t V) : bool :=
  match get k d with
  | Some _ => true
  | None => false
  end.

End Dict.

(** ** What one run of the script does to the outside

    [log_error] prints the message behind a wall-clock stamp; the stamp is
    left out of [EvLog].  [EvRerun] and [EvStop] are [st.rerun()] and
    [st.stop()], which end the run. *)

(** The values a query parameter takes: [st.selectbox] answers a string, or
    [None] when it has no option to offer; the epoch bounds are integers. *)
Inductive param_value : Type :=
| PStr (s : string)
| PInt (n : Z)
| PNone.

Record request : Type := mkRequest {
  req_url : string;
  req_api_key : string;
  req_params : Dict.t param_value
}.

(** ** Session state and the login form (lines 17-52) *)

Record session_state : Type := mkSession {
  logged_in : bool
}.

(** Line 18-19: the flag a fresh session starts with. *)
Definition initial_session : session_state := mkSession false.

(** [st.secrets]: every section and every key may be absent. *)
Record credentials : Type := mkCredentials {
  usernames : option (list string);
  passwords : option (list string)
}.

Record edgeapi_section : Type := mkEdgeApi {
  api_key : option string
}.

Record secrets : Type := mkSecrets {
  sec_credentials : option credentials;
  sec_edgeapi : option edgeapi_section
}.

(** ** Dates, as Python's [datetime] module computes with them

    [st.date_input] answers a [datetime.date].  The ordinal arithmetic below
    follows the module's pure-Python source ([_is_leap], [_days_before_year],
    [_days_in_month], [_days_before_month], [_ymd2ord], [_ord2ymd]). *)

Open Scope Z_scope.

Record date : Type := mkDate {
  year : Z;
  month : Z;
  day : Z
}.

Definition is_leap (y : Z) : bool :=
  (y mod 4 =? 0) && (negb (y mod 100 =? 0) || (y mod 400 =? 0)).

Definition days_before_year (y : Z) : Z :=
  let p := y - 1 in p * 365 + p / 4 - p / 100 + p / 400.

Definition DAYS_IN_MONTH : list Z :=
  [-1; 31; 28; 31; 30; 31; 30; 31; 31; 30; 31; 30; 31].

Definition DAYS_BEFORE_MONTH : list Z :=
  [-1; 0; 31; 59; 90; 120; 151; 181; 212; 243; 273; 304; 334].

Definition days_in_month (y m : Z) : Z :=
  if (m =? 2) && is_leap y then 29 else nth (Z.to_nat m) DAYS_IN_MONTH (-1).

Definition days_before_month (y m : Z) : Z :=
  nth (Z.to_nat m) DAYS_BEFORE_MONTH (-1)
  + (if (2 <? m) && is_leap y then 1 else 0).

(** The dates a [datetime.date] can hold: [MINYEAR] is 1, [MAXYEAR] 9999. *)
Definition valid_date (d : date) : bool :=
  (1 <=? year d) && (year d <=? 9999)
  && (1 <=? month d) && (month d <=? 12)
  && (1 <=? day d) && (day d <=? days_in_month (year d) (month d)).

Definition ymd2ord (y m d : Z) : Z :=
  days_before_year y + days_before_month y m + d.

Definition toordinal (d : date) : Z := ymd2ord (year d) (month d) (day d).

(** [date(1970, 1, 1).toordinal()]. *)
Definition EPOCH_ORDINAL : Z := 719163.

(** [(b - a).days] for two dates. *)
Definition date_diff_days (b a : date) : Z := toordinal b - toordinal a.

Definition DI400Y : Z := 146097.
Definition DI100Y : Z := 36524.
Definition DI4Y : Z := 1461.

(** [_ord2ymd]: the date of a proleptic Gregorian ordinal. *)
Definition ord2ymd (n : Z) : date :=
  let n := n - 1 in
  let n400 := n / DI400Y in
  let n := n mod DI400Y in
  let n100 := n / DI100Y in
  let n := n mod DI100Y in
  let n4 := n / DI4Y in
  let n := n mod DI4Y in
  let n1 := n / 365 in
  let n := n mod 365 in
  let y := n400 * 400 + 1 + n100 * 100 + n4 * 4 + n1 in
  if (n1 =? 4) || (n100 =? 4) then mkDate (y - 1) 12 31
  else
    let leapyear := (n1 =? 3) && (negb (n4 =? 24) || (n100 =? 3)) in
    let m := Z.shiftr (n + 50) 5 in
    let preceding :=
      nth (Z.to_nat m) DAYS_BEFORE_MONTH (-1)
      + (if (2 <? m) && leapyear then 1 else 0) in
    if n <? preceding then
      let m' := m - 1 in
      let preceding' :=
        preceding
        - (nth (Z.to_nat m') DAYS_IN_MONTH (-1)
           + (if (m' =? 2) && leapyear then 1 else 0)) in
      mkDate y m' (n - preceding' + 1)
    else mkDate y m (n - preceding + 1).

(** Dates compare as the triples (year, month, day). *)
Definition date_ltb (a b : date) : bool :=
  (year a <? year b)
  || ((year a =? year b)
      && ((month a <? month b)
          || ((month a =? month b) && (day a <? day b)))).

Definition date_leb (a b : date) : bool := negb (date_ltb b a).

Definition date_eqb (a b : date) : bool :=
  (year a =? year b) && (month a =? month b) && (day a =? day b).

Definition year_length (y : Z) : Z := if is_leap y then 366 else 365.

(** The same day [400 * k] years later: the Gregorian calendar repeats
    every 400 years, that is every [DI400Y] days. *)
Definition shift_years (k : Z) (d : date) : date :=
  mkDate (year d + 400 * k) (month d) (day d).

(** The [n] integers from [lo] on. *)
Definition Zrange (lo : Z) (n : nat) : list Z :=
  map (fun i => lo + Z.of_nat i) (seq 0 n).

(** A date, when valid, is the date of its ordinal. *)
Definition roundtrip_ok (d : date) : bool :=
  negb (valid_date d) || date_eqb (ord2ymd (toordinal d)) d.

(** A time of day, [datetime.time]. *)
Record time_of_day : Type := mkTime {
  hour : Z;
  minute : Z;
  second : Z;
  microsecond : Z
}.

Definition time_min : time_of_day := mkTime 0 0 0 0.
Definition time_max : time_of_day := mkTime 23 59 59 999999.

(** ** Python floats, as far as [timestamp()] and [int()] need them

    A finite double is a sign and a magnitude [fl_mant * 2 ^ fl_exp].
    [float_of_ratio n d] is the double nearest to [n / d] (ties to even), which
    is what the true division of two Python integers returns.  Only the
    53-bit significand is modelled: the magnitudes met here (microseconds to
    a few 10^11 seconds) are far from the exponent's limits. *)

Record pyfloat : Type := mkFloat {
  fl_neg : bool;
  fl_mant : Z;
  fl_exp : Z
}.

Definition round_half_even (num den : Z) : Z :=
  let q := num / den in
  let r := num mod den in
  if 2 * r <? den then q
  else if den <? 2 * r then q + 1
  else if Z.even q then q else q + 1.

(** The exponent [e] with [2 ^ e <= a / d < 2 ^ (e + 1)], for positive
    [a] and [d]. *)
Definition floor_log2_ratio (a d : Z) : Z :=
  let e0 := Z.log2 a - Z.log2 d in
  let above :=
    if 0 <=? e0 then d * 2 ^ e0 <=? a else d <=? a * 2 ^ (- e0) in
  if above then e0 else e0 - 1.

Definition float_of_ratio (n d : Z) : pyfloat :=
  if n =? 0 then mkFloat false 0 0
  else
    let a := Z.abs n in
    let e := floor_log2_ratio a d - 52 in
    let m :=
      if 0 <=? e then round_half_even a (d * 2 ^ e)
      else round_half_even (a * 2 ^ (- e)) d in
    mkFloat (n <? 0) m e.

(** [int(x)]: truncation towards zero. *)
Definition int_of_float (x : pyfloat) : Z :=
  let v :=
    if 0 <=? fl_exp x then fl_mant x * 2 ^ fl_exp x
    else fl_mant x / 2 ^ (- fl_exp x) in
  if fl_neg x then - v else v.

(** [datetime.combine(d, t, tzinfo=timezone.utc).timestamp()]: the
    difference to the epoch as a [timedelta], then its [total_seconds()],
    a true division of the microsecond count by [10 ** 6]. *)
Definition total_microseconds (d : date) (t : time_of_day) : Z :=
  ((toordinal d - EPOCH_ORDINAL) * 86400
   + (second t + minute t * 60 + hour t * 3600)) * 10 ^ 6
  + microsecond t.

Definition timestamp (d : date) (t : time_of_day) : pyfloat :=
  float_of_ratio (total_microseconds d t) (10 ^ 6).

(** Lines 126-127 and 132-133. *)
Definition start_epoch (d : date) : Z := int_of_float (timestamp d time_min).
Definition end_epoch (d : date) : Z := int_of_float (timestamp d time_max).

(** The days whose last microsecond, [23:59:59.999999], is a double below
    the next whole second: from the epoch to 2514-05-29.  A day later the
    seconds reach [2 ^ 34], doubles are [2 ^ -18] apart there, and the
    nearest one is the next midnight itself.  The two pickers of lines 125
    and 131 are given the current day and no bounds, so the dates they
    offer lie within ten years of the day the script runs. *)
Definition FIRST_EXACT_DAY : date := mkDate 1970 1 1.
Definition LAST_EXACT_DAY : date := mkDate 2514 5 29.

Definition in_exact_range (d : date) : bool :=
  date_leb FIRST_EXACT_DAY d && date_leb d LAST_EXACT_DAY.

(** ** JSON payloads and pandas frames *)

#[local] Set Warnings "-register-all".

(** What [response.json()] answers.  Numbers are integers here: fractional
    numbers play no part in the properties below. *)
Inductive json : Type :=
| JNull
| JBool (b : bool)
| JInt (n : Z)
| JStr (s : string)
| JArr (items : list json)
| JObj (fields : list (string * json)).

(** [isinstance(data, dict) and key in data]. *)
Definition json_has_key (key : string) (data : json) : bool :=
  match data with
  | JObj fields => Dict.mem key fields
  | _ => false
  end.

(** [data.get(key)] on a dict. *)
Definition json_get (key : string) (data : json) : option json :=
  match data with
  | JObj fields => Dict.get key fields
  | _ => None
  end.

(** Truthiness: [not data] holds for [None], [False], [0], the empty string,
    the empty list and the empty dict. *)
Definition json_truthy (data : json) : bool :=
  match data with
  | JNull => false
  | JBool b => b
  | JInt n => negb (n =? 0)
  | JStr s => str_truthy s
  | JArr items => match items with [] => false | _ :: _ => true end
  | JObj fields => match fields with [] => false | _ :: _ => true end
  end.

(** A calendar timestamp to the second, what a [datetime64] cell shows. *)
Record calendar_time : Type := mkCal {
  cal_date : date;
  cal_hour : Z;
  cal_minute : Z;
  cal_second : Z
}.

(** A cell of an [object] column. *)
Inductive cell : Type :=
| CellInt (n : Z)
| CellFloat (x : pyfloat)
| CellBool (b : bool)
| CellStr (s : string)
| CellNull.

(** A cell of a [float64] column: NaN, a whole number, or any other finite
    double (the infinities, which JSON cannot carry, are left out). *)
Inductive float_cell : Type :=
| FNaN
| FWhole (s : Z)
| FFraction (x : pyfloat).

(** A column with its dtype: [int64]; [float64], which is also what a
    column of integers with gaps becomes; [bool]; [object] for anything with
    a string in it; [datetime64] with NaT as [None].  [ColDatetimeOf c] is
    the [datetime64] column pandas makes of the numeric column [c] when [c]
    holds fractional seconds or seconds beyond the range of nanosecond
    timestamps: it has the rows of [c], and what its cells show differs
    between pandas versions (NaT, or a date at a coarser resolution), so
    they are not spelled out. *)
Inductive column : Type :=
| ColInt (vs : list Z)
| ColFloat (vs : list float_cell)
| ColBool (vs : list bool)
| ColObject (vs : list cell)
| ColDatetime (vs : list (option calendar_time))
| ColDatetimeOf (source : column).

(** A frame: its columns in order, by name. *)
Definition frame : Type := Dict.t column.

(** [pd.api.types.is_numeric_dtype]: integers, floats and booleans. *)
Definition is_numeric_dtype (c : column) : bool :=
  match c with
  | ColInt _ | ColFloat _ | ColBool _ => true
  | ColObject _ | ColDatetime _ | ColDatetimeOf _ => false
  end.

(** The seconds a [datetime64[ns]] can hold: nanoseconds in a signed 64-bit
    integer whose least value is NaT. *)
Definition DATETIME64_MAX_SECONDS : Z := 9223372036.

Definition in_ns_range (s : Z) : bool :=
  (- DATETIME64_MAX_SECONDS <=? s) && (s <=? DATETIME64_MAX_SECONDS).

(** The calendar reading of an epoch second. *)
Definition calendar_of_epoch (s : Z) : calendar_time :=
  let secs := s mod 86400 in
  mkCal (ord2ymd (s / 86400 + EPOCH_ORDINAL))
        (secs / 3600) ((secs mod 3600) / 60) (secs mod 60).

(** The range ends inside a second: a double that is not whole counts as
    within it when its whole part is strictly inside. *)
Definition float_cell_in_ns_range (v : float_cell) : bool :=
  match v with
  | FNaN => true
  | FWhole s => in_ns_range s
  | FFraction x =>
      (- DATETIME64_MAX_SECONDS <? int_of_float x)
      && (int_of_float x <? DATETIME64_MAX_SECONDS)
  end.

Definition float_cell_whole (v : float_cell) : bool :=
  match v with
  | FNaN | FWhole _ => true
  | FFraction _ => false
  end.

(** No second of the column lies beyond the nanosecond timestamps. *)
Definition column_in_ns_range (c : column) : bool :=
  match c with
  | ColInt vs => forallb in_ns_range vs
  | ColFloat vs => forallb float_cell_in_ns_range vs
  | _ => true
  end.

(** No cell of the column is a fraction of a second. *)
Definition column_whole (c : column) : bool :=
  match c with
  | ColFloat vs => forallb float_cell_whole vs
  | _ => true
  end.

(** A cell of a [float64] column of whole seconds and NaN, the only
    columns it is used on: NaN gives NaT. *)
Definition read_float_cell (v : float_cell) : option calendar_time :=
  match v with
  | FWhole s => Some (calendar_of_epoch s)
  | FNaN | FFraction _ => None
  end.

(** [pd.to_datetime(col, unit='s', errors='coerce')] when it answers,
    called on numeric columns only (line 189 guards line 190).  Whole
    seconds within the nanosecond range are read as calendar timestamps and
    NaN as NaT; a boolean is no number of seconds and gives NaT. *)
Definition to_datetime (c : column) : column :=
  match c with
  | ColInt vs =>
      if column_in_ns_range c
      then ColDatetime (map (fun s => Some (calendar_of_epoch s)) vs)
      else ColDatetimeOf c
  | ColFloat vs =>
      if column_in_ns_range c && column_whole c
      then ColDatetime (map read_float_cell vs)
      else ColDatetimeOf c
  | ColBool vs => ColDatetime (map (fun _ => None) vs)
  | ColObject _ | ColDatetime _ | ColDatetimeOf _ => c
  end.

(** ** The trace of a run *)

Inductive ui_event : Type :=
| EvError (msg : string)
| EvLog (msg : string)
| EvNotice (msg : string)
| EvSuccess (msg : string)
| EvRequest (r : request)
| EvDownload (file_name : string) (table : frame)
| EvRerun
| EvStop.

(** What the script takes from its libraries and its clock without the
    properties below depending on how: Python's [repr] of a list or dict
    inside an f-string, [pd.json_normalize] (a frame, or the text of the
    exception it raises), [datetime.now().strftime('%Y%m%d_%H%M%S')], and
    whether [pd.to_datetime] raises on a column with seconds beyond the
    nanosecond range (some pandas versions do, with an [OverflowError], in
    spite of [errors='coerce']; then the text of the exception). *)
Record runtime : Type := mkRuntime {
  repr_container : json -> string;
  json_normalize : json -> frame + string;
  now_stamp : string;
  to_datetime_error : column -> option string
}.

(** [f"{v}"] for a value taken from a JSON body with [.get]. *)
Definition fstr (rt : runtime) (v : option json) : string :=
  match v with
  | None | Some JNull => "None"
  | Some (JBool true) => "True"
  | Some (JBool false) => "False"
  | Some (JInt n) => str_of_int n
  | Some (JStr s) => s
  | Some (JArr items) => repr_container rt (JArr items)
  | Some (JObj fields) => repr_container rt (JObj fields)
  end.

(** ** Logout and the login form (lines 21-52) *)

(** Lines 21-24, the callback of the logout button: the flag is reset and a
    rerun is asked for.  What Streamlit makes of a rerun asked for inside a
    callback is the library's; the trace records the call. *)
Definition logout (st : session_state) : session_state * list ui_event :=
  (mkSession false, [EvRerun]).

(** One submission of the form, shown only while [logged_in] is false. *)
Definition login_submit (sec : secrets) (st : session_state)
    (username password : string) : session_state * list ui_event :=
  match sec_credentials sec with
  | None =>
      (st, [EvError "Missing [credentials] section in your secrets.toml file."])
  | Some c =>
      match usernames c, passwords c with
      | Some us, Some ps =>
          if str_in_list username us && str_in_list password ps
          then (mkSession true, [EvRerun])
          else (st, [EvError "Incorrect username or password"])
      | _, _ =>
          (st, [EvError "Missing 'usernames' or 'passwords' under [credentials] in your secrets.toml file."])
      end
  end.

(** ** The endpoint registry (lines 62-93) *)

Record endpoint : Type := mkEndpoint {
  ep_name : string;
  ep_path : string;
  ep_description : string;
  ep_params : list string;
  ep_required_params : list string
}.

Definition endpoints : list endpoint :=
  [ mkEndpoint "Devices" "/devices"
      "Returns device details based on the API Key and optional device serial ID."
      ["device_serialid"] []
  ; mkEndpoint "Events Interval" "/events/interval/"
      "Returns event details based on the device_serialid provided within the time stamps."
      ["device_serialid"; "dates"] ["device_serialid"]
  ; mkEndpoint "Power Quality Live" "/powerquality/live/"
      "Returns live power quality based on the serialid provided."
      ["device_serialid"] ["device_serialid"]
  ; mkEndpoint "Power Quality Interval" "/powerquality/interval/"
      "Returns power quality data based on the provided serialid and the time stamps."
      ["device_serialid"; "dates"; "granularity"]
      ["device_serialid"; "granularity"]
  ; mkEndpoint "Power Quality Aggregated" "/powerquality/aggregated/"
      "Returns aggregated power quality data based on the provided serialid and the time stamps."
      ["device_serialid"; "dates"; "granularity"]
      ["device_serialid"; "granularity"] ].

Definition base_url : string := "https://v3.edgezeroapi.com/pienergy".

(** ** The parameter form (lines 102-148) *)

(** What the user has entered: the text field, the two date pickers and
    the position chosen in the granularity box. *)
Record form_inputs : Type := mkInputs {
  in_device : string;
  in_start : date;
  in_end : date;
  in_granularity : nat
}.

(** The script's variables after the form has been rendered.  The two
    dates exist only when their pickers were rendered (line 137 asks
    [locals()] for them). *)
Record form_state : Type := mkForm {
  params : Dict.t param_value;
  full_url : string;
  device_serialid : string;
  start_date : option date;
  end_date : option date
}.

(** Lines 104-107. *)
Definition initial_form : form_state := mkForm Dict.empty "" "" None None.

Definition set_param (k : string) (v : param_value) (fs : form_state)
    : form_state :=
  mkForm (Dict.set k v (params fs)) (full_url fs) (device_serialid fs)
         (start_date fs) (end_date fs).

(** [st.selectbox(label, options)]: the option chosen, the first one until
    the user picks another (or when the remembered choice is no longer on
    offer), [None] when there is nothing to choose from. *)
Definition selectbox (options : list string) (choice : nat) : option string :=
  match nth_error options choice with
  | Some o => Some o
  | None => hd_error options
  end.

Definition param_of_choice (c : option string) : param_value :=
  match c with
  | Some s => PStr s
  | None => PNone
  end.

(** Lines 109-120. *)
Definition device_block (ep : endpoint) (inp : form_inputs) (fs : form_state)
    : form_state :=
  if str_in_list "device_serialid" (ep_params ep) then
    let dev := in_device inp in
    if negb (str_in_list (ep_name ep) ["Devices"]) then
      mkForm (params fs) (base_url ++ ep_path ep ++ dev)%string dev
             (start_date fs) (end_date fs)
    else
      let fs' :=
        mkForm (params fs) (base_url ++ ep_path ep)%string dev
               (start_date fs) (end_date fs) in
      if str_truthy dev then set_param "device_serialid" (PStr dev) fs'
      else fs'
  else fs.

(** Lines 122-134. *)
Definition dates_block (ep : endpoint) (inp : form_inputs) (fs : form_state)
    : form_state :=
  if str_in_list "dates" (ep_params ep) then
    let fs1 :=
      set_param "starttime" (PInt (start_epoch (in_start inp)))
        (mkForm (params fs) (full_url fs) (device_serialid fs)
                (Some (in_start inp)) (end_date fs)) in
    set_param "endtime" (PInt (end_epoch (in_end inp)))
      (mkForm (params fs1) (full_url fs1) (device_serialid fs1)
              (start_date fs1) (Some (in_end inp)))
  else fs.

(** Lines 140-146. *)
Definition granularity_options (date_range_days : Z) : list string :=
  if date_range_days <? 1 then ["1m"; "5m"; "15m"; "1h"; "daily"]
  else if (1 <=? date_range_days) && (date_range_days <=? 7)
  then ["15m"; "1h"; "daily"]
  else ["1h"; "daily"].

(** Lines 137-146: the options the granularity box is rendered with, when
    both dates are there to render it. *)
Definition offered_granularities (fs : form_state) : option (list string) :=
  match start_date fs, end_date fs with
  | Some s, Some e =>
      let date_range_days := date_diff_days e s in
      Some (granularity_options date_range_days)
  | _, _ => None
  end.

(** Lines 136-148. *)
Definition granularity_block (ep : endpoint) (inp : form_inputs)
    (fs : form_state) : form_state :=
  if str_in_list "granularity" (ep_params ep) then
    match offered_granularities fs with
    | Some options =>
        set_param "granularity"
          (param_of_choice (selectbox options (in_granularity inp))) fs
    | None => fs
    end
  else fs.

Definition build_form (ep : endpoint) (inp : form_inputs) : form_state :=
  granularity_block ep inp
    (dates_block ep inp (device_block ep inp initial_form)).

(** ** The response formatter (lines 185-199) *)

(** Line 188. *)
Definition time_like (col : string) : bool :=
  str_in_str "time" col || str_in_str "date" col || str_in_str "epoch" col.

(** Line 190: the name of the derived column. *)
Definition readable_name (col : string) : string := (col ++ "_readable")%string.

(** Lines 188-190, for one column name of the loop. *)
Definition readable_step (df : frame) (col : string) : frame :=
  if time_like col then
    match Dict.get col df with
    | Some c =>
        if is_numeric_dtype c
        then Dict.set (readable_name col) (to_datetime c) df
        else df
    | None => df
    end
  else df.

(** Lines 187-190: the loop runs over the column index as it was before
    the first assignment, and reads each column from the frame as it is by
    then.  This is the frame the loop ends with when no conversion
    raises. *)
Definition add_readable_columns (df : frame) : frame :=
  fold_left readable_step (Dict.keys df) df.

(** Line 190, when it raises: only on seconds beyond the nanosecond range,
    and only if the pandas at hand does. *)
Definition conversion_error (rt : runtime) (c : column) : option string :=
  if column_in_ns_range c then None else to_datetime_error rt c.

(** Lines 188-190 for one column name: the exception, if the conversion
    raises. *)
Definition readable_step_error (rt : runtime) (df : frame) (col : string)
    : option string :=
  if time_like col then
    match Dict.get col df with
    | Some c => if is_numeric_dtype c then conversion_error rt c else None
    | None => None
    end
  else None.

(** Lines 187-190: the first exception the loop meets, if any; it ends the
    loop. *)
Fixpoint first_conversion_error (rt : runtime) (names : list string)
    (df : frame) : option string :=
  match names with
  | [] => None
  | col :: rest =>
      match readable_step_error rt df col with
      | Some exc => Some exc
      | None => first_conversion_error rt rest (readable_step df col)
      end
  end.

(** What the loop amounts to on a frame none of whose columns already has
    the name of a derived one: a derived column for each numeric column with
    a time-like name, in the order of the columns. *)
Definition derived_columns (df : frame) : frame :=
  flat_map
    (fun entry : string * column =>
       if time_like (fst entry) && is_numeric_dtype (snd entry)
       then [(readable_name (fst entry), to_datetime (snd entry))]
       else [])
    df.

Fixpoint unique_names (names : list string) : bool :=
  match names with
  | [] => true
  | n :: rest => negb (str_in_list n rest) && unique_names rest
  end.

Definition fresh_readable_names (df : frame) : bool :=
  forallb
    (fun name => negb (time_like name && Dict.mem (readable_name name) df))
    (Dict.keys df).

(** What a derived cell has to show for a second [t], said with the date
    arithmetic of the form rather than with the conversion itself: a valid
    date and time of day whose epoch second is [t]. *)
Definition valid_calendar (c : calendar_time) : bool :=
  valid_date (cal_date c)
  && (0 <=? cal_hour c) && (cal_hour c <? 24)
  && (0 <=? cal_minute c) && (cal_minute c <? 60)
  && (0 <=? cal_second c) && (cal_second c <? 60).

Definition epoch_of_calendar (c : calendar_time) : Z :=
  (toordinal (cal_date c) - EPOCH_ORDINAL) * 86400
  + (cal_hour c * 3600 + cal_minute c * 60 + cal_second c).

Definition reads_second (t : Z) (shown : option calendar_time) : Prop :=
  exists c, shown = Some c /\ valid_calendar c = true /\ epoch_of_calendar c = t.

Definition reads_float_cell (v : float_cell) (shown : option calendar_time)
    : Prop :=
  match v with
  | FNaN => shown = None
  | FWhole t => reads_second t shown
  | FFraction _ => True
  end.

(** A valid month and day, whatever the year; and an ordinal whose date is
    one and has that ordinal. *)
Definition valid_month_day (d : date) : bool :=
  (1 <=? month d) && (month d <=? 12)
  && (1 <=? day d) && (day d <=? days_in_month (year d) (month d)).

Definition ordinal_ok (n : Z) : bool :=
  valid_month_day (ord2ymd n) && (toordinal (ord2ymd n) =? n).

(** Every column of the frame is within the nanosecond range. *)
Definition frame_in_ns_range (df : frame) : bool :=
  forallb (fun entry : string * column => column_in_ns_range (snd entry)) df.

Definition ascii_lower (c : ascii) : ascii :=
  let n := nat_of_ascii c in
  if (65 <=? n)%nat && (n <=? 90)%nat then ascii_of_nat (n + 32) else c.

Fixpoint str_map (f : ascii -> ascii) (s : string) : string :=
  match s with
  | EmptyString => EmptyString
  | String c s' => String (f c) (str_map f s')
  end.

Definition space_to_underscore (c : ascii) : ascii :=
  if Ascii.eqb c " "%char then "_"%char else c.

(** Line 193. *)
Definition download_name (rt : runtime) (ep : endpoint) : string :=
  (str_map ascii_lower (str_map space_to_underscore (ep_name ep))
   ++ "_" ++ now_stamp rt ++ ".csv")%string.

(** ** The fetch button (lines 152-220) *)

Definition MSG_DEVICE_REQUIRED : string :=
  "Device Serial ID is a required parameter for this endpoint.".

(** Lines 155-159, for one name of the loop: the flag and the messages so
    far. *)
Definition validation_step (device : string) (acc : bool * list ui_event)
    (param : string) : bool * list ui_event :=
  if String.eqb param "device_serialid" && negb (str_truthy device)
  then (false, snd acc ++ [EvLog MSG_DEVICE_REQUIRED; EvError MSG_DEVICE_REQUIRED])
  else acc.

(** Lines 153-159. *)
Definition validate (ep : endpoint) (fs : form_state) : bool * list ui_event :=
  fold_left (validation_step (device_serialid fs)) (ep_required_params ep)
            (true, []).

(** How [requests.get] followed by [raise_for_status] and [json] ends: a
    2xx answer with its decoded body; an [HTTPError] with its text, the
    body's text and the body decoded when it is JSON; any other exception
    with its text. *)
Inductive http_result : Type :=
| HttpOk (data : json)
| HttpStatusError (exc : string) (body_text : string) (body_json : option json)
| HttpFailure (exc : string).

(** Lines 217-220. *)
Definition report_unexpected (exc : string) : list ui_event :=
  let m := ("An unexpected error occurred: " ++ exc)%string in
  [EvLog m; EvError m].

(** Lines 201-216. *)
Definition report_http_error (rt : runtime) (exc body_text : string)
    (body_json : option json) : list ui_event :=
  let m := ("HTTP Error: " ++ exc)%string in
  [EvLog m; EvError m]
  ++ match body_json with
     | None =>
         let r := ("API Response: " ++ body_text)%string in [EvLog r; EvError r]
     | Some (JObj fields) =>
         let api_message :=
           match Dict.get "message" fields with
           | Some v => fstr rt (Some v)
           | None => body_text
           end in
         let r := ("API Response: " ++ api_message)%string in [EvLog r; EvError r]
     | Some _ => []
     end.

(** Lines 177-199. *)
Definition handle_payload (rt : runtime) (ep : endpoint) (data : json)
    : list ui_event :=
  if json_has_key "error-code" data then
    let m :=
      ("API Error " ++ fstr rt (json_get "error-code" data)
       ++ ": " ++ fstr rt (json_get "message" data))%string in
    [EvLog m; EvError m]
  else if negb (json_truthy data) then
    [EvNotice "The API returned no data for the given parameters."]
  else
    EvSuccess "Data fetched successfully!"
    :: match json_normalize rt data with
       | inl df =>
           match first_conversion_error rt (Dict.keys df) df with
           | Some exc => report_unexpected exc
           | None =>
               [EvDownload (download_name rt ep) (add_readable_columns df)]
           end
       | inr exc => report_unexpected exc
       end.

Definition MSG_NO_API_KEY : string := "API Key not found in Streamlit secrets.".

(** Line 163 and 169. *)
Definition configured_api_key (sec : secrets) : option string :=
  match sec_edgeapi sec with
  | Some section => api_key section
  | None => None
  end.

(** Lines 152-220: one click on the fetch button, with the server's answer
    to the request it may send. *)
Definition fetch_click (rt : runtime) (sec : secrets) (ep : endpoint)
    (fs : form_state) (server : request -> http_result) : list ui_event :=
  let (validation_passed, errors) := validate ep fs in
  errors
  ++ if validation_passed then
       match configured_api_key sec with
       | None => [EvLog MSG_NO_API_KEY; EvError MSG_NO_API_KEY; EvStop]
       | Some key =>
           let r := mkRequest (full_url fs) key (params fs) in
           EvRequest r
           :: match server r with
              | HttpOk data => handle_payload rt ep data
              | HttpStatusError exc body_text body_json =>
                  report_http_error rt exc body_text body_json
              | HttpFailure exc => report_unexpected exc
              end
       end
     else [].

(** A whole run that ends in a click: the form is rendered from the
    widgets' values, then the button's block runs. *)
Definition render_and_fetch (rt : runtime) (sec : secrets) (ep : endpoint)
    (inp : form_inputs) (server : request -> http_result) : list ui_event :=
  fetch_click rt sec ep (build_form ep inp) server.

(** ** Reading a trace, and the specification's notion of a missing
    parameter *)

(** The messages a trace shows with [st.error]. *)
Definition shown_errors (trace : list ui_event) : list string :=
  flat_map (fun ev => match ev with EvError m => [m] | _ => [] end) trace.

(** The requests a trace sends. *)
Definition sent_requests (trace : list ui_event) : list request :=
  flat_map (fun ev => match ev with EvRequest r => [r] | _ => [] end) trace.

(** The files a trace offers for download. *)
Definition offered_downloads (trace : list ui_event) : list (string * frame) :=
  flat_map (fun ev => match ev with EvDownload f t => [(f, t)] | _ => [] end)
           trace.

(** How often the validation loop complains: once per occurrence of the
    device id among the required names, when the field is empty. *)
Definition complaints (device : string) (required : list string) : nat :=
  if str_truthy device then 0%nat
  else count_occ string_dec required "device_serialid".

(** Section 4.3 of the specification, in its words: a required parameter is
    satisfied when the form's state holds a non-empty value for it.  The
    device id lives in the text field's variable, every other parameter in
    the parameter map. *)
Definition spec_value_present (fs : form_state) (param : string) : bool :=
  if String.eqb param "device_serialid" then str_truthy (device_serialid fs)
  else
    match Dict.get param (params fs) with
    | Some (PStr s) => str_truthy s
    | Some (PInt _) => true
    | Some PNone | None => false
    end.

Definition spec_missing_required (ep : endpoint) (fs : form_state)
    : list string :=
  filter (fun param => negb (spec_value_present fs param))
         (ep_required_params ep).

(** ** Sample data for the worked examples *)

Definition sample_credentials : credentials :=
  mkCredentials (Some ["alice"; "bob"]) (Some ["pa"; "pb"]).

Definition sample_secrets : secrets :=
  mkSecrets (Some sample_credentials) (Some (mkEdgeApi (Some "k3y"))).

Definition sample_runtime : runtime :=
  mkRuntime (fun _ => "[...]") (fun _ => inr "NotImplementedError")
            "20240101_120000" (fun _ => Some "OverflowError").

Definition ep_devices : endpoint :=
  mkEndpoint "Devices" "/devices"
    "Returns device details based on the API Key and optional device serial ID."
    ["device_serialid"] [].

Definition ep_power_quality_interval : endpoint :=
  mkEndpoint "Power Quality Interval" "/powerquality/interval/"
    "Returns power quality data based on the provided serialid and the time stamps."
    ["device_serialid"; "dates"; "granularity"]
    ["device_serialid"; "granularity"].

Definition new_year_2024 : date := mkDate 2024 1 1.

(** One row [{"starttime": 1704067200}]. *)
Definition sample_frame : frame := [("starttime", ColInt [1704067200])].

(** Two rows, [{"starttime": 1704067200}] and [{"starttime": "n/a"}]: one
    string makes the column an [object] column. *)
Definition sample_text_frame : frame :=
  [("starttime", ColObject [CellInt 1704067200; CellStr "n/a"])].

(** Two rows, the second without an [updated] key. *)
Definition sample_gap_frame : frame :=
  [ ("serial", ColObject [CellStr "E1"; CellStr "E2"])
  ; ("updated", ColFloat [FWhole 1704153599; FNaN]) ].

(** One row [{"is_updated": true}]. *)
Definition sample_bool_frame : frame := [("is_updated", ColBool [true])].

(** Two rows, [{"endtime": 99999999999}] and [{}]: the year 5138 is beyond
    the nanosecond timestamps. *)
Definition sample_far_frame : frame :=
  [("endtime", ColFloat [FWhole 99999999999; FNaN])].

(** A pandas that builds [sample_far_frame] from the payload, and whose
    [to_datetime] does or does not raise beyond the nanosecond range. *)
Definition sample_far_runtime (raises : bool) : runtime :=
  mkRuntime (fun _ => "[...]") (fun _ => inl sample_far_frame)
            "20240101_120000"
            (fun _ => if raises then Some "OverflowError" else None).

(** ** The script as a whole (lines 17-55 and 95-120)

    One run of the script per user action.  The login form is on the page
    only while the session is logged out, the main page with its sidebar
    only while it is logged in; an action on a widget the page does not show
    cannot happen and is modelled as no run. *)

(** Lines 110-112: the label of the device id field, when it is rendered. *)
Definition device_label (ep : endpoint) : option string :=
  if str_in_list "device_serialid" (ep_params ep) then
    Some (if negb (str_in_list "device_serialid" (ep_required_params ep))
          then ("Device Serial ID" ++ " (Optional)")%string
          else "Device Serial ID")
  else None.

(** The messages a trace logs with [log_error]. *)
Definition logged_messages (trace : list ui_event) : list string :=
  flat_map (fun ev => match ev with EvLog m => [m] | _ => [] end) trace.

(** The messages a trace shows with [st.success]. *)
Definition shown_successes (trace : list ui_event) : list string :=
  flat_map (fun ev => match ev with EvSuccess m => [m] | _ => [] end) trace.

(** Lines 37-44: the test a submission has to pass. *)
Definition credentials_accepted (sec : secrets) (username password : string)
    : bool :=
  match sec_credentials sec with
  | Some c =>
      match usernames c, passwords c with
      | Some us, Some ps =>
          str_in_list username us && str_in_list password ps
      | _, _ => false
      end
  | None => false
  end.

(** Line 95: [list(endpoints.keys())]. *)
Definition endpoint_names : list string := map ep_name endpoints.

(** Line 99: [endpoints[selected_endpoint_name]]. *)
Definition lookup_endpoint (name : string) : option endpoint :=
  find (fun ep => String.eqb (ep_name ep) name) endpoints.

(** Lines 95-99: the endpoint the sidebar selects. *)
Definition selected_endpoint (choice : nat) : option endpoint :=
  match selectbox endpoint_names choice with
  | Some name => lookup_endpoint name
  | None => None
  end.

(** Lines 55-220: the main page, with the values of the form when the fetch
    button was clicked.  Line 100 shows the endpoint's description. *)
Definition main_app (rt : runtime) (sec : secrets)
    (server : request -> http_result) (choice : nat)
    (click : option form_inputs) : list ui_event :=
  match selected_endpoint choice with
  | Some ep =>
      EvNotice ("**Description:** " ++ ep_description ep)%string
      :: match click with
         | Some inp => render_and_fetch rt sec ep inp server
         | None => []
         end
  | None => []
  end.

Inductive user_action : Type :=
| ActLogin (username password : string)
| ActView (endpoint_choice : nat)
| ActFetch (endpoint_choice : nat) (inp : form_inputs)
| ActLogout.

(** One action.  An accepted login reruns the script, which then shows the
    main page for the first time, the first endpoint selected.  The logout
    button's callback resets the flag and asks for a rerun before the
    script runs again, logged out. *)
Definition script_run (rt : runtime) (sec : secrets)
    (server : request -> http_result) (st : session_state)
    (act : user_action) : session_state * list ui_event :=
  if logged_in st then
    match act with
    | ActLogin _ _ => (st, [])
    | ActView choice => (st, main_app rt sec server choice None)
    | ActFetch choice inp => (st, main_app rt sec server choice (Some inp))
    | ActLogout => logout st
    end
  else
    match act with
    | ActLogin username password =>
        let (st', shown) := login_submit sec st username password in
        if logged_in st'
        then (st', shown ++ main_app rt sec server 0 None)
        else (st', shown)
    | ActView _ | ActFetch _ _ | ActLogout => (st, [])
    end.

(** A session: the actions one after the other, their traces joined. *)
Fixpoint run_session (rt : runtime) (sec : secrets)
    (server : request -> http_result) (st : session_state)
    (acts : list user_action) : session_state * list ui_event :=
  match acts with
  | [] => (st, [])
  | act :: rest =>
      let (st', trace) := script_run rt sec server st act in
      let (st'', trace') := run_session rt sec server st' rest in
      (st'', trace ++ trace')
  end.

(** The rows of a column, and a frame all of whose columns have [n] rows. *)
Fixpoint column_rows (c : column) : nat :=
  match c with
  | ColInt vs => List.length vs
  | ColFloat vs => List.length vs
  | ColBool vs => List.length vs
  | ColObject vs => List.length vs
  | ColDatetime vs => List.length vs
  | ColDatetimeOf source => column_rows source
  end.

Definition frame_has_rows (n : nat) (df : frame) : bool :=
  forallb (fun entry : string * column => Nat.eqb (column_rows (snd entry)) n)
          df.

(** Line 193 without the clock: the endpoint's part of the file name. *)
Definition download_prefix (ep : endpoint) : string :=
  str_map ascii_lower (str_map space_to_underscore (ep_name ep)).

(** The characters of a string. *)
Fixpoint str_chars (s : string) : list ascii :=
  match s with
  | EmptyString => []
  | String c s' => c :: str_chars s'
  end.

Definition is_upper (c : ascii) : bool :=
  (65 <=? nat_of_ascii c)%nat && (nat_of_ascii c <=? 90)%nat.

(** The days since the epoch of a date. *)
Definition epoch_days (d : date) : Z := toordinal d - EPOCH_ORDINAL.

(** More sample data. *)
Definition sample_inputs : form_inputs :=
  mkInputs "E1" new_year_2024 new_year_2024 0.

(** A 401 answer whose body is [{"message": "bad key"}]. *)
Definition double_quote : string := String (ascii_of_nat 34) EmptyString.

Definition sample_server : request -> http_result :=
  fun _ => HttpStatusError "401 Client Error: Unauthorized"
             ("{" ++ double_quote ++ "message" ++ double_quote ++ ": "
              ++ double_quote ++ "bad key" ++ double_quote ++ "}")%string
             (Some (JObj [("message", JStr "bad key")])).

(** A frame that already has a column of a derived name. *)
Definition sample_clash_frame : frame :=
  [ ("time", ColInt [0]); ("time_readable", ColObject [CellStr "old"]) ].

(* ================================================================= *)
(** * Part II: properties *)
(* ================================================================= *)

(** ** Strings and dictionaries *)

Lemma str_in_list_In (x : string) (xs : list string) :
  str_in_list x xs = true <-> In x xs.
Proof.
  unfold str_in_list. rewrite existsb_exists. split.
  - intros [y [Hy Heq]]. apply String.eqb_eq in Heq. now subst.
  - intros H. exists x. split; [assumption | apply String.eqb_refl].
Qed.

Lemma str_in_list_not_In (x : string) (xs : list string) :
  str_in_list x xs = false <-> ~ In x xs.
Proof.
  rewrite <- str_in_list_In. destruct (str_in_list x xs); split; intros H.
  - discriminate.
  - now elim H.
  - intros H'. discriminate.
  - reflexivity.
Qed.

Lemma str_truthy_nonempty (s : string) : str_truthy s = true <-> s <> "".
Proof. destruct s; simpl; split; intros H; congruence. Qed.

Lemma str_truthy_empty (s : string) : str_truthy s = false <-> s = "".
Proof. destruct s; simpl; split; intros H; congruence. Qed.

Module DictFacts.

Section WithValues.
Context {V : Type}.
Implicit Types (d : Dict.t V) (k : string) (v : V).

Lemma get_set_same d k v : Dict.get k (Dict.set k v d) = Some v.
Proof.
  induction d as [| [k' v'] d IH]; simpl.
  - now rewrite String.eqb_refl.
  - destruct (String.eqb k k') eqn:E; simpl.
    + now rewrite String.eqb_refl.
    + now rewrite E.
Qed.

Lemma get_set_other d k k' v :
  k' <> k -> Dict.get k' (Dict.set k v d) = Dict.get k' d.
Proof.
  intros Hne. induction d as [| [k0 v0] d IH]; simpl.
  - apply String.eqb_neq in Hne. now rewrite Hne.
  - destruct (String.eqb k k0) eqn:E; simpl.
    + apply String.eqb_eq in E. subst k0.
      apply String.eqb_neq in Hne. now rewrite Hne.
    + now rewrite IH.
Qed.

Lemma get_None_not_key d k : Dict.get k d = None <-> ~ In k (Dict.keys d).
Proof.
  induction d as [| [k0 v0] d IH]; simpl.
  - tauto.
  - destruct (String.eqb k k0) eqn:E.
    + apply String.eqb_eq in E. subst. split; [discriminate | intros H].
      elim H. now left.
    + apply String.eqb_neq in E. rewrite IH. split.
      * intros H [H' | H']; [congruence | contradiction].
      * intros H H'. apply H. now right.
Qed.

Lemma keys_set_absent d k v :
  Dict.get k d = None -> Dict.keys (Dict.set k v d) = Dict.keys d ++ [k].
Proof.
  induction d as [| [k0 v0] d IH]; simpl; [reflexivity |].
  destruct (String.eqb k k0) eqn:E; [discriminate |].
  intros H. simpl. now rewrite (IH H).
Qed.

Lemma set_absent d k v :
  Dict.get k d = None -> Dict.set k v d = d ++ [(k, v)].
Proof.
  induction d as [| [k0 v0] d IH]; simpl; [reflexivity |].
  destruct (String.eqb k k0) eqn:E; [discriminate |].
  intros H. now rewrite (IH H).
Qed.

Lemma get_app_l d d' k v :
  Dict.get k d = Some v -> Dict.get k (d ++ d') = Some v.
Proof.
  induction d as [| [k0 v0] d IH]; simpl; [discriminate |].
  destruct (String.eqb k k0); auto.
Qed.

Lemma get_app_r d d' k :
  Dict.get k d = None -> Dict.get k (d ++ d') = Dict.get k d'.
Proof.
  induction d as [| [k0 v0] d IH]; simpl; [reflexivity |].
  destruct (String.eqb k k0); [discriminate | auto].
Qed.

End WithValues.

End DictFacts.

(** ** The login form *)

(** C1. With both lists configured and the session not yet logged in, a
    submission succeeds exactly when the username is one of the configured
    usernames and the password one of the configured passwords, whatever
    their positions in the two lists: then the flag becomes true and the
    script reruns; for every other pair the flag stays false and the one
    message shown is "Incorrect username or password". *)
Theorem login_any_allowed_username_with_any_allowed_password
    (sec : secrets) (c : credentials) (us ps : list string)
    (st : session_state) (u p : string) :
  sec_credentials sec = Some c ->
  usernames c = Some us ->
  passwords c = Some ps ->
  logged_in st = false ->
  (In u us /\ In p ps ->
     logged_in (fst (login_submit sec st u p)) = true
     /\ snd (login_submit sec st u p) = [EvRerun])
  /\ (~ (In u us /\ In p ps) ->
        logged_in (fst (login_submit sec st u p)) = false
        /\ snd (login_submit sec st u p)
           = [EvError "Incorrect username or password"]).
Proof.
  intros Hc Hu Hp Hst. unfold login_submit. rewrite Hc, Hu, Hp.
  destruct (str_in_list u us) eqn:Eu; destruct (str_in_list p ps) eqn:Ep;
    simpl; split; intros H;
    try (split; [assumption || reflexivity | reflexivity]).
  - elim H. split; now apply str_in_list_In.
  - destruct H as [_ H]. apply str_in_list_In in H. congruence.
  - destruct H as [H _]. apply str_in_list_In in H. congruence.
  - destruct H as [H _]. apply str_in_list_In in H. congruence.
Qed.

(** Two accounts, [alice/pa] and [bob/pb]: alice gets in with bob's
    password. *)
Lemma login_any_allowed_username_with_any_allowed_password_witness :
  logged_in (fst (login_submit sample_secrets initial_session "alice" "pb"))
  = true
  /\ snd (login_submit sample_secrets initial_session "alice" "pb")
     = [EvRerun].
Proof.
  apply (proj1
           (login_any_allowed_username_with_any_allowed_password
              sample_secrets sample_credentials
              ["alice"; "bob"] ["pa"; "pb"] initial_session "alice" "pb"
              eq_refl eq_refl eq_refl eq_refl)).
  split; simpl; auto.
Defined.

(** Without a usable [credentials] section nobody gets in. *)
Lemma login_fails_closed (sec : secrets) (st : session_state) (u p : string) :
  (sec_credentials sec = None
   \/ exists c, sec_credentials sec = Some c
                /\ (usernames c = None \/ passwords c = None)) ->
  fst (login_submit sec st u p) = st.
Proof.
  unfold login_submit. intros [H | [c [Hc [H | H]]]].
  - now rewrite H.
  - rewrite Hc, H. reflexivity.
  - rewrite Hc, H. now destruct (usernames c).
Qed.

(** ** The parameter form *)

#[local] Arguments start_epoch : simpl never.
#[local] Arguments end_epoch : simpl never.
#[local] Arguments date_diff_days : simpl never.
#[local] Arguments granularity_options : simpl never.
#[local] Arguments selectbox : simpl never.

(** Case analysis over the five entries of the registry. *)
Ltac registry_cases H :=
  unfold endpoints in H; simpl in H;
  repeat (destruct H as [H | H]; [subst | ]); [ .. | contradiction ].

Lemma selectbox_member (options : list string) (choice : nat) :
  options <> [] ->
  exists g, selectbox options choice = Some g /\ In g options.
Proof.
  intros Hne. unfold selectbox.
  destruct (nth_error options choice) as [o |] eqn:E.
  - exists o. split; [reflexivity | now apply nth_error_In with choice].
  - destruct options as [| o options]; [congruence |].
    exists o. split; [reflexivity | now left].
Qed.

Lemma selectbox_default (options : list string) :
  selectbox options 0 = hd_error options.
Proof. now destruct options. Qed.

Lemma granularity_options_cases (days : Z) :
  granularity_options days = ["1m"; "5m"; "15m"; "1h"; "daily"]
  \/ granularity_options days = ["15m"; "1h"; "daily"]
  \/ granularity_options days = ["1h"; "daily"].
Proof.
  unfold granularity_options.
  destruct (days <? 1); [now left |].
  destruct ((1 <=? days) && (days <=? 7)); [right; now left | right; now right].
Qed.

Lemma granularity_options_nonempty (days : Z) : granularity_options days <> [].
Proof.
  destruct (granularity_options_cases days) as [H | [H | H]]; rewrite H;
    discriminate.
Qed.

Lemma granularity_options_truthy (days : Z) (g : string) :
  In g (granularity_options days) -> str_truthy g = true.
Proof.
  destruct (granularity_options_cases days) as [H | [H | H]]; rewrite H;
    simpl; intros Hin;
    repeat (destruct Hin as [Hin | Hin]; [now subst |]); contradiction.
Qed.

(** The form of each kind of endpoint, block by block. *)

Lemma form_device_serialid (ep : endpoint) (inp : form_inputs) :
  In ep endpoints -> device_serialid (build_form ep inp) = in_device inp.
Proof.
  intros Hin. registry_cases Hin; unfold build_form; cbn;
    try reflexivity; try now destruct (str_truthy (in_device inp)).
  all: destruct (offered_granularities _); reflexivity.
Qed.

Lemma form_dates_rendered (ep : endpoint) (inp : form_inputs) (fs : form_state) :
  In "dates" (ep_params ep) ->
  offered_granularities (dates_block ep inp fs)
  = Some (granularity_options (date_diff_days (in_end inp) (in_start inp))).
Proof.
  intros Hin. apply str_in_list_In in Hin. unfold dates_block.
  rewrite Hin. reflexivity.
Qed.

Lemma form_granularity_param (ep : endpoint) (inp : form_inputs) :
  In "dates" (ep_params ep) ->
  In "granularity" (ep_params ep) ->
  Dict.get "granularity" (params (build_form ep inp))
  = Some (param_of_choice
            (selectbox
               (granularity_options
                  (date_diff_days (in_end inp) (in_start inp)))
               (in_granularity inp))).
Proof.
  intros Hd Hg. unfold build_form, granularity_block.
  rewrite (form_dates_rendered _ _ _ Hd).
  apply str_in_list_In in Hg. rewrite Hg.
  unfold set_param; cbn [params]. apply DictFacts.get_set_same.
Qed.

Lemma form_epoch_params (ep : endpoint) (inp : form_inputs) :
  In "dates" (ep_params ep) ->
  Dict.get "starttime" (params (build_form ep inp))
  = Some (PInt (start_epoch (in_start inp)))
  /\ Dict.get "endtime" (params (build_form ep inp))
     = Some (PInt (end_epoch (in_end inp))).
Proof.
  intros Hd. unfold build_form, granularity_block.
  rewrite (form_dates_rendered _ _ _ Hd).
  assert (Hdates :
    Dict.get "starttime" (params (dates_block ep inp (device_block ep inp initial_form)))
    = Some (PInt (start_epoch (in_start inp)))
    /\ Dict.get "endtime" (params (dates_block ep inp (device_block ep inp initial_form)))
       = Some (PInt (end_epoch (in_end inp)))).
  { apply str_in_list_In in Hd. unfold dates_block. rewrite Hd.
    unfold set_param; cbn [params]. split.
    - rewrite DictFacts.get_set_other by discriminate.
      apply DictFacts.get_set_same.
    - apply DictFacts.get_set_same. }
  destruct (str_in_list "granularity" (ep_params ep)); [| exact Hdates].
  unfold set_param; cbn [params].
  rewrite !DictFacts.get_set_other by discriminate. exact Hdates.
Qed.

(** C5. For every endpoint of the registry that takes a granularity and
    every pair of dates picked, the options the granularity box offers are
    fixed by the span [end_date - start_date] in days: below one day the
    five options 1m, 5m, 15m, 1h, daily; from one to seven days 15m, 1h,
    daily; above seven days 1h, daily. *)
Theorem granularity_options_by_span (ep : endpoint) (inp : form_inputs) :
  In ep endpoints ->
  In "granularity" (ep_params ep) ->
  let span := date_diff_days (in_end inp) (in_start inp) in
  let offered :=
    offered_granularities
      (dates_block ep inp (device_block ep inp initial_form)) in
  (span < 1 -> offered = Some ["1m"; "5m"; "15m"; "1h"; "daily"])
  /\ (1 <= span <= 7 -> offered = Some ["15m"; "1h"; "daily"])
  /\ (7 < span -> offered = Some ["1h"; "daily"]).
Proof.
  intros Hin Hg span offered.
  assert (Hd : In "dates" (ep_params ep)).
  { registry_cases Hin; simpl in Hg |- *; intuition discriminate. }
  subst offered. rewrite (form_dates_rendered _ _ _ Hd). fold span.
  unfold granularity_options.
  repeat split; intros H.
  - destruct (Z.ltb_spec span 1); [reflexivity | lia].
  - destruct (Z.ltb_spec span 1); [lia |].
    destruct (Z.leb_spec 1 span); [| lia].
    destruct (Z.leb_spec span 7); [reflexivity | lia].
  - destruct (Z.ltb_spec span 1); [lia |].
    destruct (Z.leb_spec 1 span); [| lia].
    destruct (Z.leb_spec span 7); [lia | reflexivity].
Qed.

(** A range of seven days, 2024-01-01 to 2024-01-08. *)
Lemma granularity_options_by_span_witness :
  offered_granularities
    (dates_block ep_power_quality_interval
       (mkInputs "E1" new_year_2024 (mkDate 2024 1 8) 0)
       (device_block ep_power_quality_interval
          (mkInputs "E1" new_year_2024 (mkDate 2024 1 8) 0) initial_form))
  = Some ["15m"; "1h"; "daily"].
Proof.
  refine (proj1 (proj2
    (granularity_options_by_span ep_power_quality_interval
       (mkInputs "E1" new_year_2024 (mkDate 2024 1 8) 0) _ _)) _).
  - unfold endpoints, ep_power_quality_interval. simpl. tauto.
  - simpl. tauto.
  - vm_compute. split; discriminate.
Defined.

(** The three ranges the specification names: the same day, seven days and
    eight days. *)
Example granularity_same_day :
  granularity_options (date_diff_days new_year_2024 new_year_2024)
  = ["1m"; "5m"; "15m"; "1h"; "daily"].
Proof. reflexivity. Qed.

Example granularity_seven_days :
  granularity_options (date_diff_days (mkDate 2024 1 8) new_year_2024)
  = ["15m"; "1h"; "daily"].
Proof. reflexivity. Qed.

Example granularity_eight_days :
  granularity_options (date_diff_days (mkDate 2024 1 9) new_year_2024)
  = ["1h"; "daily"].
Proof. reflexivity. Qed.

(** C6. In the registry, every endpoint other than "Devices" gets the URL
    [base_url ++ path ++ device id], the three pieces joined as they are;
    for "Devices" the URL is [base_url ++ "/devices"] whatever the device
    id, and the device id, when not empty, is the query parameter
    [device_serialid]. *)
Theorem url_construction (ep : endpoint) (inp : form_inputs) :
  In ep endpoints ->
  (ep_name ep <> "Devices" ->
   in_device inp <> "" ->
   full_url (build_form ep inp)
   = (base_url ++ ep_path ep ++ in_device inp)%string)
  /\ (ep_name ep = "Devices" ->
      full_url (build_form ep inp)
      = "https://v3.edgezeroapi.com/pienergy/devices"
      /\ (in_device inp <> "" ->
          Dict.get "device_serialid" (params (build_form ep inp))
          = Some (PStr (in_device inp)))).
Proof.
  intros Hin. registry_cases Hin; (split; [intros Hname Hdev | intros Hname]);
    try (exfalso; apply Hname; reflexivity); try discriminate Hname.
  - unfold build_form. cbn. split.
    + now destruct (str_truthy (in_device inp)).
    + intros Hdev. apply str_truthy_nonempty in Hdev. rewrite Hdev.
      cbn. reflexivity.
  - unfold build_form. cbn. reflexivity.
  - unfold build_form. cbn. reflexivity.
  - unfold build_form, granularity_block.
    rewrite form_dates_rendered by (simpl; tauto). cbn. reflexivity.
  - unfold build_form, granularity_block.
    rewrite form_dates_rendered by (simpl; tauto). cbn. reflexivity.
Qed.

Lemma url_construction_witness :
  full_url
    (build_form ep_power_quality_interval
       (mkInputs "E123" new_year_2024 new_year_2024 0))
  = "https://v3.edgezeroapi.com/pienergy/powerquality/interval/E123".
Proof.
  refine (proj1
    (url_construction ep_power_quality_interval
       (mkInputs "E123" new_year_2024 new_year_2024 0) _) _ _).
  - unfold endpoints, ep_power_quality_interval. simpl. tauto.
  - discriminate.
  - discriminate.
Defined.

(** The device id of a path endpoint is not a query parameter. *)
Lemma path_endpoints_send_no_device_parameter (ep : endpoint) (inp : form_inputs) :
  In ep endpoints ->
  ep_name ep <> "Devices" ->
  Dict.get "device_serialid" (params (build_form ep inp)) = None.
Proof.
  intros Hin Hname. registry_cases Hin;
    try (exfalso; apply Hname; reflexivity).
  - reflexivity.
  - reflexivity.
  - unfold build_form, granularity_block.
    rewrite form_dates_rendered by (simpl; tauto). reflexivity.
  - unfold build_form, granularity_block.
    rewrite form_dates_rendered by (simpl; tauto). reflexivity.
Qed.

(** C8. For the "Devices" endpoint with an empty device id field, the
    query parameters hold no [device_serialid] key (they are empty
    altogether) and the URL is [base_url ++ "/devices"]. *)
Theorem devices_empty_id_omitted (ep : endpoint) (inp : form_inputs) :
  In ep endpoints ->
  ep_name ep = "Devices" ->
  in_device inp = "" ->
  Dict.mem "device_serialid" (params (build_form ep inp)) = false
  /\ params (build_form ep inp) = []
  /\ full_url (build_form ep inp) = (base_url ++ "/devices")%string.
Proof.
  intros Hin Hname Hdev. registry_cases Hin; try discriminate Hname.
  unfold build_form. cbn. rewrite Hdev. cbn. repeat split.
Qed.

Lemma devices_empty_id_omitted_witness :
  Dict.mem "device_serialid"
    (params (build_form ep_devices (mkInputs "" new_year_2024 new_year_2024 0)))
  = false
  /\ params (build_form ep_devices (mkInputs "" new_year_2024 new_year_2024 0))
     = []
  /\ full_url (build_form ep_devices (mkInputs "" new_year_2024 new_year_2024 0))
     = (base_url ++ "/devices")%string.
Proof.
  apply (devices_empty_id_omitted ep_devices
           (mkInputs "" new_year_2024 new_year_2024 0)).
  - unfold endpoints, ep_devices. simpl. tauto.
  - reflexivity.
  - reflexivity.
Defined.

(** ** The fetch button *)

(** The validation loop looks at one name only. *)
Lemma validation_step_other_name (device : string)
    (acc : bool * list ui_event) (param : string) :
  param <> "device_serialid" -> validation_step device acc param = acc.
Proof.
  intros Hne. unfold validation_step.
  apply String.eqb_neq in Hne. now rewrite Hne.
Qed.

Lemma validation_fold (device : string) (required : list string)
    (acc : bool * list ui_event) :
  fold_left (validation_step device) required acc
  = (match complaints device required with
     | O => fst acc
     | S _ => false
     end,
     snd acc
     ++ List.concat (repeat [EvLog MSG_DEVICE_REQUIRED; EvError MSG_DEVICE_REQUIRED]
                       (complaints device required))).
Proof.
  unfold complaints. revert acc.
  induction required as [| p ps IH]; intros [ok evs]; simpl.
  - destruct (str_truthy device); simpl; now rewrite app_nil_r.
  - rewrite IH. unfold validation_step.
    destruct (str_truthy device) eqn:Edev; simpl.
    + now rewrite andb_false_r.
    + rewrite andb_true_r. destruct (string_dec p "device_serialid") as [-> | Hne].
      * rewrite String.eqb_refl. simpl. rewrite <- app_assoc. simpl.
        f_equal. now destruct (count_occ _ _ _).
      * apply String.eqb_neq in Hne. rewrite Hne. reflexivity.
Qed.

Lemma validate_outcome (ep : endpoint) (fs : form_state) :
  validate ep fs
  = (match complaints (device_serialid fs) (ep_required_params ep) with
     | O => true
     | S _ => false
     end,
     List.concat (repeat [EvLog MSG_DEVICE_REQUIRED; EvError MSG_DEVICE_REQUIRED]
                    (complaints (device_serialid fs) (ep_required_params ep)))).
Proof. unfold validate. now rewrite validation_fold. Qed.

Lemma complaints_trace (n : nat) :
  shown_errors
    (List.concat (repeat [EvLog MSG_DEVICE_REQUIRED; EvError MSG_DEVICE_REQUIRED] n))
  = repeat MSG_DEVICE_REQUIRED n
  /\ sent_requests
       (List.concat (repeat [EvLog MSG_DEVICE_REQUIRED; EvError MSG_DEVICE_REQUIRED] n))
     = [].
Proof.
  induction n as [| n [IH1 IH2]]; simpl; [split; reflexivity |].
  rewrite IH1. split; [reflexivity | exact IH2].
Qed.

Lemma fetch_click_blocked (rt : runtime) (sec : secrets) (ep : endpoint)
    (fs : form_state) (server : request -> http_result) :
  fst (validate ep fs) = false ->
  fetch_click rt sec ep fs server = snd (validate ep fs).
Proof.
  intros H. unfold fetch_click. destruct (validate ep fs) as [ok errs].
  simpl in H. subst ok. simpl. apply app_nil_r.
Qed.

Lemma fetch_click_passed (rt : runtime) (sec : secrets) (ep : endpoint)
    (fs : form_state) (server : request -> http_result) :
  fst (validate ep fs) = true ->
  fetch_click rt sec ep fs server
  = match configured_api_key sec with
    | None => [EvLog MSG_NO_API_KEY; EvError MSG_NO_API_KEY; EvStop]
    | Some key =>
        EvRequest (mkRequest (full_url fs) key (params fs))
        :: match server (mkRequest (full_url fs) key (params fs)) with
           | HttpOk data => handle_payload rt ep data
           | HttpStatusError exc body_text body_json =>
               report_http_error rt exc body_text body_json
           | HttpFailure exc => report_unexpected exc
           end
    end.
Proof.
  intros H. unfold fetch_click. rewrite validate_outcome in *.
  simpl in H. destruct (complaints _ _); [reflexivity | discriminate].
Qed.

Lemma handle_payload_no_request (rt : runtime) (ep : endpoint) (data : json) :
  sent_requests (handle_payload rt ep data) = [].
Proof.
  unfold handle_payload, report_unexpected.
  destruct (json_has_key "error-code" data);
    [| destruct (negb (json_truthy data));
       [| destruct (json_normalize rt data) as [df | exc];
          [destruct (first_conversion_error rt (Dict.keys df) df) |]]];
    reflexivity.
Qed.

Lemma report_http_error_no_request (rt : runtime) (exc text : string)
    (body : option json) :
  sent_requests (report_http_error rt exc text body) = [].
Proof.
  unfold report_http_error.
  destruct body as [[| | | | |] |]; reflexivity.
Qed.

(** A click sends at most one request, the one the form built, and only
    after the validation has passed. *)
Lemma fetch_click_requests (rt : runtime) (sec : secrets) (ep : endpoint)
    (fs : form_state) (server : request -> http_result) :
  sent_requests (fetch_click rt sec ep fs server)
  = if fst (validate ep fs) then
      match configured_api_key sec with
      | Some key => [mkRequest (full_url fs) key (params fs)]
      | None => []
      end
    else [].
Proof.
  destruct (fst (validate ep fs)) eqn:E.
  - rewrite fetch_click_passed by assumption.
    destruct (configured_api_key sec) as [key |]; [| reflexivity].
    cbn. f_equal.
    destruct (server _);
      [apply handle_payload_no_request
      | apply report_http_error_no_request
      | reflexivity].
  - rewrite fetch_click_blocked by assumption.
    rewrite validate_outcome. simpl. apply complaints_trace.
Qed.

(** The granularity a form of the registry holds is one of the options on
    offer, hence a non-empty string. *)
Lemma form_granularity_value (ep : endpoint) (inp : form_inputs) :
  In "dates" (ep_params ep) ->
  In "granularity" (ep_params ep) ->
  exists g,
    In g (granularity_options (date_diff_days (in_end inp) (in_start inp)))
    /\ Dict.get "granularity" (params (build_form ep inp)) = Some (PStr g).
Proof.
  intros Hd Hg. rewrite (form_granularity_param ep inp Hd Hg).
  destruct (selectbox_member
              (granularity_options (date_diff_days (in_end inp) (in_start inp)))
              (in_granularity inp)
              (granularity_options_nonempty _)) as [g [Hsel Hin]].
  exists g. rewrite Hsel. auto.
Qed.

Lemma registry_granularity_needs_dates (ep : endpoint) :
  In ep endpoints -> In "granularity" (ep_params ep) -> In "dates" (ep_params ep).
Proof.
  intros Hin Hg. registry_cases Hin; simpl in Hg |- *; intuition discriminate.
Qed.

(** C10. In the registry every endpoint that accepts a granularity also
    accepts dates; so for such an endpoint the granularity box is always
    rendered, holds one of the options on offer (the first one while the
    user has not chosen), and every request sent carries a [granularity]
    parameter. *)
Theorem granularity_always_supplied (ep : endpoint) :
  In ep endpoints ->
  In "granularity" (ep_params ep) ->
  In "dates" (ep_params ep)
  /\ forall inp : form_inputs,
       let options :=
         granularity_options (date_diff_days (in_end inp) (in_start inp)) in
       offered_granularities
         (dates_block ep inp (device_block ep inp initial_form))
       = Some options
       /\ (exists g,
             In g options
             /\ Dict.get "granularity" (params (build_form ep inp))
                = Some (PStr g))
       /\ (in_granularity inp = 0%nat ->
           exists g,
             hd_error options = Some g
             /\ Dict.get "granularity" (params (build_form ep inp))
                = Some (PStr g))
       /\ (forall rt sec server r,
             In r (sent_requests (render_and_fetch rt sec ep inp server)) ->
             Dict.mem "granularity" (req_params r) = true).
Proof.
  intros Hin Hg.
  pose proof (registry_granularity_needs_dates ep Hin Hg) as Hd.
  split; [exact Hd |]. intros inp options. repeat split.
  - now apply form_dates_rendered.
  - now apply form_granularity_value.
  - intros H0. rewrite (form_granularity_param ep inp Hd Hg), H0.
    rewrite selectbox_default. fold options.
    pose proof (granularity_options_nonempty
                  (date_diff_days (in_end inp) (in_start inp))) as Hne.
    fold options in Hne. destruct options as [| g rest]; [congruence |].
    exists g. split; reflexivity.
  - intros rt sec server r Hr. unfold render_and_fetch in Hr.
    rewrite fetch_click_requests in Hr.
    destruct (fst (validate ep (build_form ep inp))); [| contradiction].
    destruct (configured_api_key sec) as [key |]; [| contradiction].
    destruct Hr as [<- | []]. cbn [req_params]. unfold Dict.mem.
    destruct (form_granularity_value ep inp Hd Hg) as [g [_ Hget]].
    now rewrite Hget.
Qed.

Lemma granularity_always_supplied_witness :
  Dict.get "granularity"
    (params (build_form ep_power_quality_interval
               (mkInputs "E1" new_year_2024 new_year_2024 0)))
  = Some (PStr "1m").
Proof.
  destruct (proj1 (proj2 (proj2
    (proj2 (granularity_always_supplied ep_power_quality_interval
              ltac:(unfold endpoints, ep_power_quality_interval; simpl; tauto)
              ltac:(simpl; tauto))
           (mkInputs "E1" new_year_2024 new_year_2024 0)))) eq_refl)
    as [g [Hhd Hget]].
  vm_compute in Hhd. injection Hhd as <-. exact Hget.
Defined.

(** What is missing from a form of the registry, in the specification's
    sense, is the device id when it is required and empty, and nothing
    else. *)
Lemma registry_missing_required (ep : endpoint) (inp : form_inputs) :
  In ep endpoints ->
  spec_missing_required ep (build_form ep inp)
  = repeat "device_serialid"
           (complaints (in_device inp) (ep_required_params ep)).
Proof.
  intros Hin. unfold spec_missing_required, complaints.
  assert (Hgran :
    In "dates" (ep_params ep) -> In "granularity" (ep_params ep) ->
    spec_value_present (build_form ep inp) "granularity" = true).
  { intros Hd Hg. unfold spec_value_present. simpl String.eqb.
    destruct (form_granularity_value ep inp Hd Hg) as [g [Hopt Hget]].
    rewrite Hget. now apply granularity_options_truthy in Hopt. }
  assert (Hdev :
    spec_value_present (build_form ep inp) "device_serialid"
    = str_truthy (in_device inp)).
  { unfold spec_value_present. simpl String.eqb.
    now rewrite form_device_serialid. }
  registry_cases Hin; cbn [ep_required_params filter];
    rewrite ?Hdev, ?Hgran by (simpl; tauto);
    destruct (str_truthy (in_device inp)); reflexivity.
Qed.

(** C3. For every endpoint of the registry and every state the form can be
    in when the button is clicked, the validation passes exactly when no
    required parameter lacks a non-empty value; each missing one is
    reported by one error message, and then no request is sent; when none is
    missing the request goes out.  This covers the two endpoints that
    require a granularity: their form always holds one. *)
Theorem required_parameters_validated (ep : endpoint) (inp : form_inputs) :
  In ep endpoints ->
  let fs := build_form ep inp in
  let missing := spec_missing_required ep fs in
  (fst (validate ep fs) = true <-> missing = [])
  /\ shown_errors (snd (validate ep fs))
     = repeat MSG_DEVICE_REQUIRED (List.length missing)
  /\ forall rt sec server,
       (missing <> [] ->
        sent_requests (render_and_fetch rt sec ep inp server) = []
        /\ shown_errors (render_and_fetch rt sec ep inp server)
           = repeat MSG_DEVICE_REQUIRED (List.length missing))
       /\ (missing = [] ->
           forall key, configured_api_key sec = Some key ->
           sent_requests (render_and_fetch rt sec ep inp server)
           = [mkRequest (full_url fs) key (params fs)]).
Proof.
  intros Hin fs missing.
  assert (Hmiss : missing
                  = repeat "device_serialid"
                      (complaints (in_device inp) (ep_required_params ep))).
  { apply registry_missing_required, Hin. }
  assert (Hval : validate ep fs
                 = (match List.length missing with O => true | S _ => false end,
                    List.concat
                      (repeat [EvLog MSG_DEVICE_REQUIRED; EvError MSG_DEVICE_REQUIRED]
                              (List.length missing)))).
  { rewrite validate_outcome. subst fs.
    rewrite (form_device_serialid ep inp Hin), Hmiss, repeat_length.
    reflexivity. }
  assert (Hpass : fst (validate ep fs) = true <-> missing = []).
  { rewrite Hval. simpl. destruct missing; simpl; split; congruence. }
  split; [exact Hpass |]. split.
  - rewrite Hval. simpl. apply complaints_trace.
  - intros rt sec server. unfold render_and_fetch. fold fs. split.
    + intros Hne.
      assert (Hfail : fst (validate ep fs) = false).
      { destruct (fst (validate ep fs)); [| reflexivity].
        elim Hne. now apply Hpass. }
      rewrite fetch_click_requests, Hfail. split; [reflexivity |].
      rewrite fetch_click_blocked by assumption.
      rewrite Hval. simpl. apply complaints_trace.
    + intros Hnil key Hkey. apply Hpass in Hnil.
      now rewrite fetch_click_requests, Hnil, Hkey.
Qed.

(** The interval endpoint requires a device id and a granularity; with the
    device id field cleared, one message is shown and nothing is sent. *)
Lemma required_parameters_validated_witness :
  sent_requests
    (render_and_fetch sample_runtime sample_secrets ep_power_quality_interval
       (mkInputs "" new_year_2024 new_year_2024 0) (fun _ => HttpOk (JArr [])))
  = []
  /\ shown_errors
       (render_and_fetch sample_runtime sample_secrets ep_power_quality_interval
          (mkInputs "" new_year_2024 new_year_2024 0) (fun _ => HttpOk (JArr [])))
     = [MSG_DEVICE_REQUIRED].
Proof.
  refine (proj1 (proj2 (proj2
    (required_parameters_validated ep_power_quality_interval
       (mkInputs "" new_year_2024 new_year_2024 0) _))
    sample_runtime sample_secrets (fun _ => HttpOk (JArr []))) _).
  - unfold endpoints, ep_power_quality_interval. simpl. tauto.
  - vm_compute. discriminate.
Defined.

(** ** The payload of a successful answer *)

Lemma empty_payload_has_no_key (key : string) (data : json) :
  json_truthy data = false -> json_has_key key data = false.
Proof.
  destruct data as [| b | n | s | items | fields]; simpl; try reflexivity.
  destruct fields; [reflexivity | discriminate].
Qed.

Lemma handle_payload_api_error (rt : runtime) (ep : endpoint) (data : json) :
  json_has_key "error-code" data = true ->
  handle_payload rt ep data
  = [ EvLog ("API Error " ++ fstr rt (json_get "error-code" data)
             ++ ": " ++ fstr rt (json_get "message" data))%string
    ; EvError ("API Error " ++ fstr rt (json_get "error-code" data)
               ++ ": " ++ fstr rt (json_get "message" data))%string ].
Proof. intros H. unfold handle_payload. now rewrite H. Qed.

Lemma handle_payload_empty (rt : runtime) (ep : endpoint) (data : json) :
  json_truthy data = false ->
  handle_payload rt ep data
  = [EvNotice "The API returned no data for the given parameters."].
Proof.
  intros H. unfold handle_payload.
  now rewrite (empty_payload_has_no_key _ _ H), H.
Qed.

(** A payload that is neither an error object nor empty goes on to the
    formatter, and a frame that could be built and converted is offered for
    download, its readable columns added. *)
Lemma handle_payload_data (rt : runtime) (ep : endpoint) (data : json)
    (df : frame) :
  json_has_key "error-code" data = false ->
  json_truthy data = true ->
  json_normalize rt data = inl df ->
  first_conversion_error rt (Dict.keys df) df = None ->
  handle_payload rt ep data
  = [ EvSuccess "Data fetched successfully!"
    ; EvDownload (download_name rt ep) (add_readable_columns df) ].
Proof.
  intros H1 H2 H3 H4. unfold handle_payload. now rewrite H1, H2, H3, H4.
Qed.

(** C7. When the request was sent and the server answered with a 2xx
    status: a body that is an object with an [error-code] key ends the
    click with one error, "API Error <code>: <message>", logged and shown,
    and no download; an empty body ends it with the notice that the API
    returned no data for the given parameters, no error and no
    download. *)
Theorem api_error_payload_and_empty_payload
    (rt : runtime) (sec : secrets) (ep : endpoint) (fs : form_state)
    (server : request -> http_result) (key : string) (data : json) :
  fst (validate ep fs) = true ->
  configured_api_key sec = Some key ->
  server (mkRequest (full_url fs) key (params fs)) = HttpOk data ->
  (json_has_key "error-code" data = true ->
   shown_errors (fetch_click rt sec ep fs server)
   = [("API Error " ++ fstr rt (json_get "error-code" data)
       ++ ": " ++ fstr rt (json_get "message" data))%string]
   /\ In (EvLog ("API Error " ++ fstr rt (json_get "error-code" data)
                 ++ ": " ++ fstr rt (json_get "message" data))%string)
         (fetch_click rt sec ep fs server)
   /\ offered_downloads (fetch_click rt sec ep fs server) = [])
  /\ (json_truthy data = false ->
      fetch_click rt sec ep fs server
      = [ EvRequest (mkRequest (full_url fs) key (params fs))
        ; EvNotice "The API returned no data for the given parameters." ]
      /\ shown_errors (fetch_click rt sec ep fs server) = []
      /\ offered_downloads (fetch_click rt sec ep fs server) = []).
Proof.
  intros Hv Hk Hs. rewrite (fetch_click_passed rt sec ep fs server Hv), Hk, Hs.
  split; intros H.
  - rewrite (handle_payload_api_error rt ep data H). cbn.
    repeat split. right. now left.
  - rewrite (handle_payload_empty rt ep data H). repeat split.
Qed.

(** The answer [{"error-code": 4, "message": "no device"}] with status
    200, on the "Devices" endpoint. *)
Lemma api_error_payload_and_empty_payload_witness :
  shown_errors
    (fetch_click sample_runtime sample_secrets ep_devices
       (build_form ep_devices (mkInputs "" new_year_2024 new_year_2024 0))
       (fun _ => HttpOk (JObj [("error-code", JInt 4);
                               ("message", JStr "no device")])))
  = ["API Error 4: no device"]
  /\ offered_downloads
       (fetch_click sample_runtime sample_secrets ep_devices
          (build_form ep_devices (mkInputs "" new_year_2024 new_year_2024 0))
          (fun _ => HttpOk (JObj [("error-code", JInt 4);
                                  ("message", JStr "no device")])))
     = [].
Proof.
  destruct (proj1
    (api_error_payload_and_empty_payload sample_runtime sample_secrets
       ep_devices
       (build_form ep_devices (mkInputs "" new_year_2024 new_year_2024 0))
       (fun _ => HttpOk (JObj [("error-code", JInt 4);
                               ("message", JStr "no device")]))
       "k3y"
       (JObj [("error-code", JInt 4); ("message", JStr "no device")])
       eq_refl eq_refl eq_refl) eq_refl) as [Herr [_ Hdl]].
  split; [exact Herr | exact Hdl].
Defined.

(** The empty list as a 200 answer. *)
Example empty_payload_notice :
  fetch_click sample_runtime sample_secrets ep_devices
    (build_form ep_devices (mkInputs "" new_year_2024 new_year_2024 0))
    (fun _ => HttpOk (JArr []))
  = [ EvRequest (mkRequest "https://v3.edgezeroapi.com/pienergy/devices"
                           "k3y" [])
    ; EvNotice "The API returned no data for the given parameters." ].
Proof. reflexivity. Qed.

(** ** Dates and epoch seconds *)

Lemma is_leap_spec (y : Z) :
  is_leap y = true <-> (y mod 4 = 0 /\ (y mod 100 <> 0 \/ y mod 400 = 0)).
Proof.
  unfold is_leap.
  destruct (Z.eqb_spec (y mod 4) 0), (Z.eqb_spec (y mod 100) 0),
    (Z.eqb_spec (y mod 400) 0); simpl; intuition congruence.
Qed.

Lemma days_before_year_succ (y : Z) :
  days_before_year (y + 1) = days_before_year y + year_length y.
Proof.
  unfold days_before_year, year_length, is_leap.
  replace (y + 1 - 1) with y by ring.
  destruct (Z.eqb_spec (y mod 4) 0), (Z.eqb_spec (y mod 100) 0),
    (Z.eqb_spec (y mod 400) 0); simpl;
    Z.div_mod_to_equations; lia.
Qed.

Lemma days_before_year_mono (y1 y2 : Z) :
  y1 <= y2 -> days_before_year y1 <= days_before_year y2.
Proof.
  intros H. unfold days_before_year. Z.div_mod_to_equations. lia.
Qed.

Lemma date_eqb_eq (a b : date) : date_eqb a b = true <-> a = b.
Proof.
  destruct a as [y1 m1 d1], b as [y2 m2 d2]. unfold date_eqb. simpl.
  rewrite !andb_true_iff, !Z.eqb_eq. split.
  - intros [[-> ->] ->]. reflexivity.
  - intros H. injection H. auto.
Qed.

Lemma valid_date_spec (d : date) :
  valid_date d = true <->
  1 <= year d <= 9999 /\ 1 <= month d <= 12
  /\ 1 <= day d <= days_in_month (year d) (month d).
Proof.
  unfold valid_date. rewrite !andb_true_iff, !Z.leb_le. lia.
Qed.

Ltac month_cases m :=
  let H := fresh in
  assert (H : m = 1 \/ m = 2 \/ m = 3 \/ m = 4 \/ m = 5 \/ m = 6 \/ m = 7
              \/ m = 8 \/ m = 9 \/ m = 10 \/ m = 11 \/ m = 12) by lia;
  repeat (destruct H as [H | H]; [subst m | ]); [ .. | subst m ].

(** Evaluates the month tables at a literal month. *)
Ltac month_tables :=
  repeat match goal with
         | |- context [Z.to_nat ?n] =>
             let v := eval vm_compute in (Z.to_nat n) in
             change (Z.to_nat n) with v
         | H : context [Z.to_nat ?n] |- _ =>
             let v := eval vm_compute in (Z.to_nat n) in
             change (Z.to_nat n) with v in H
         end;
  cbn [nth DAYS_IN_MONTH DAYS_BEFORE_MONTH andb Z.ltb Z.eqb Z.compare
       Pos.compare Pos.compare_cont Pos.eqb] in *.

(** Within a year, ordinals grow with the month and the day. *)
Lemma days_before_month_next (y m1 m2 : Z) :
  1 <= m1 -> m1 < m2 -> m2 <= 12 ->
  days_before_month y m1 + days_in_month y m1 <= days_before_month y m2.
Proof.
  intros H1 H2 H3. unfold days_before_month, days_in_month.
  destruct (is_leap y); month_cases m1; month_cases m2; try lia;
    month_tables; lia.
Qed.

Lemma day_of_year_bounds (y m d : Z) :
  1 <= m <= 12 -> 1 <= d <= days_in_month y m ->
  1 <= days_before_month y m + d <= year_length y.
Proof.
  intros Hm. unfold days_before_month, days_in_month, year_length.
  destruct (is_leap y); month_cases m; month_tables; lia.
Qed.

Lemma toordinal_lt (a b : date) :
  valid_date a = true -> valid_date b = true ->
  date_ltb a b = true -> toordinal a < toordinal b.
Proof.
  intros Ha Hb. apply valid_date_spec in Ha, Hb.
  destruct a as [y1 m1 d1], b as [y2 m2 d2]. unfold date_ltb, toordinal, ymd2ord.
  cbn [year month day] in *.
  destruct Ha as [Hy1 [Hm1 Hd1]], Hb as [Hy2 [Hm2 Hd2]].
  repeat (rewrite orb_true_iff || rewrite andb_true_iff).
  rewrite !Z.ltb_lt, !Z.eqb_eq.
  pose proof (day_of_year_bounds y1 m1 d1 Hm1 Hd1) as B1.
  pose proof (day_of_year_bounds y2 m2 d2 Hm2 Hd2) as B2.
  intros [Hy | [-> [Hm | [-> Hd]]]].
  - pose proof (days_before_year_succ y1).
    pose proof (days_before_year_mono (y1 + 1) y2 ltac:(lia)). lia.
  - pose proof (days_before_month_next y2 m1 m2 ltac:(lia) Hm ltac:(lia)). lia.
  - lia.
Qed.

(** *** The Gregorian cycle of 400 years *)


Lemma Zrange_In (lo x : Z) (n : nat) :
  lo <= x < lo + Z.of_nat n -> In x (Zrange lo n).
Proof.
  intros H. unfold Zrange. apply in_map_iff.
  exists (Z.to_nat (x - lo)). split; [lia |].
  apply in_seq. lia.
Qed.

Lemma is_leap_period (y k : Z) : is_leap (y + 400 * k) = is_leap y.
Proof.
  unfold is_leap.
  replace ((y + 400 * k) mod 4) with (y mod 4)
    by (replace (y + 400 * k) with (y + (100 * k) * 4) by ring;
        now rewrite Z_mod_plus_full).
  replace ((y + 400 * k) mod 100) with (y mod 100)
    by (replace (y + 400 * k) with (y + (4 * k) * 100) by ring;
        now rewrite Z_mod_plus_full).
  replace ((y + 400 * k) mod 400) with (y mod 400)
    by (replace (y + 400 * k) with (y + k * 400) by ring;
        now rewrite Z_mod_plus_full).
  reflexivity.
Qed.

Lemma days_before_year_period (y k : Z) :
  days_before_year (y + 400 * k) = days_before_year y + DI400Y * k.
Proof.
  unfold days_before_year, DI400Y.
  replace ((y + 400 * k - 1) / 4) with ((y - 1) / 4 + 100 * k)
    by (replace (y + 400 * k - 1) with (y - 1 + (100 * k) * 4) by ring;
        now rewrite Z_div_plus_full).
  replace ((y + 400 * k - 1) / 100) with ((y - 1) / 100 + 4 * k)
    by (replace (y + 400 * k - 1) with (y - 1 + (4 * k) * 100) by ring;
        now rewrite Z_div_plus_full).
  replace ((y + 400 * k - 1) / 400) with ((y - 1) / 400 + k)
    by (replace (y + 400 * k - 1) with (y - 1 + k * 400) by ring;
        now rewrite Z_div_plus_full).
  ring.
Qed.

Lemma toordinal_period (d : date) (k : Z) :
  toordinal (shift_years k d) = toordinal d + DI400Y * k.
Proof.
  unfold toordinal, ymd2ord, shift_years, days_before_month. cbn [year month day].
  rewrite days_before_year_period, is_leap_period. ring.
Qed.

Lemma ord2ymd_period (n k : Z) :
  ord2ymd (n + DI400Y * k) = shift_years k (ord2ymd n).
Proof.
  unfold ord2ymd.
  replace (n + DI400Y * k - 1) with (n - 1 + k * DI400Y) by ring.
  rewrite Z_div_plus_full, Z_mod_plus_full by (unfold DI400Y; lia).
  set (r := (n - 1) mod DI400Y).
  cbv zeta.
  destruct ((r mod DI100Y mod DI4Y / 365 =? 4) || (r / DI100Y =? 4));
    [unfold shift_years; cbn [year month day]; f_equal; ring |].
  match goal with
  | |- (if ?c then _ else _) = _ =>
      destruct c; unfold shift_years; cbn [year month day]; f_equal; ring
  end.
Qed.

Lemma forallb_Zrange (f : Z -> bool) (lo : Z) (n : nat) :
  forallb f (Zrange lo n) = true ->
  forall x, lo <= x < lo + Z.of_nat n -> f x = true.
Proof.
  intros H x Hx. rewrite forallb_forall in H. apply H.
  now apply Zrange_In.
Qed.

(** Every date of the years 1 to 400 is the date of its ordinal: checked by
    running both conversions on each of them. *)
Lemma cycle_roundtrip :
  forallb
    (fun y =>
       forallb
         (fun m => forallb (fun dd => roundtrip_ok (mkDate y m dd)) (Zrange 1 31))
         (Zrange 1 12))
    (Zrange 1 400)
  = true.
Proof. vm_cast_no_check (eq_refl true). Qed.


Lemma roundtrip_ok_elim (d : date) :
  roundtrip_ok d = true -> valid_date d = true -> ord2ymd (toordinal d) = d.
Proof.
  unfold roundtrip_ok. intros H Hv.
  apply orb_true_iff in H. destruct H as [H | H].
  - rewrite Hv in H. discriminate H.
  - apply date_eqb_eq. exact H.
Qed.

Lemma valid_day_range (y m dd : Z) :
  1 <= m <= 12 -> 1 <= dd <= days_in_month y m -> 1 <= dd <= 31.
Proof.
  intros Hm Hd. unfold days_in_month in Hd.
  destruct ((m =? 2) && is_leap y); [lia |].
  revert Hd. month_cases m; month_tables; lia.
Qed.

Lemma ord2ymd_toordinal_cycle (d : date) :
  valid_date d = true -> 1 <= year d <= 400 -> ord2ymd (toordinal d) = d.
Proof.
  intros Hv Hy. pose proof Hv as Hspec. apply valid_date_spec in Hspec.
  destruct Hspec as [_ [Hm Hd]].
  pose proof (valid_day_range _ _ _ Hm Hd) as Hdd.
  apply roundtrip_ok_elim; [| exact Hv].
  destruct d as [y m dd]. cbn [year month day] in *.
  pose proof (forallb_Zrange _ _ _ cycle_roundtrip y ltac:(lia)) as Hcycle.
  cbv beta in Hcycle.
  pose proof (forallb_Zrange _ _ _ Hcycle m ltac:(lia)) as Hcycle'.
  cbv beta in Hcycle'. clear Hcycle.
  exact (forallb_Zrange _ _ _ Hcycle' dd ltac:(lia)).
Qed.

Theorem ord2ymd_toordinal (d : date) :
  valid_date d = true -> ord2ymd (toordinal d) = d.
Proof.
  intros Hv. pose proof Hv as Hspec. apply valid_date_spec in Hspec.
  destruct d as [y m dd]. cbn [year month day] in Hspec.
  destruct Hspec as [Hy [Hm Hd]].
  pose (k := (y - 1) / 400).
  pose (y0 := y - 400 * k).
  assert (Hy0 : 1 <= y0 <= 400).
  { subst y0 k. Z.div_mod_to_equations. lia. }
  assert (Hshift : mkDate y m dd = shift_years k (mkDate y0 m dd)).
  { unfold shift_years. cbn [year month day]. f_equal. subst y0. ring. }
  assert (Hleap : is_leap y0 = is_leap y).
  { replace y with (y0 + 400 * k) by (subst y0; ring).
    now rewrite is_leap_period. }
  assert (Hv0 : valid_date (mkDate y0 m dd) = true).
  { apply valid_date_spec. cbn [year month day].
    unfold days_in_month in *. rewrite Hleap. lia. }
  rewrite Hshift, toordinal_period, ord2ymd_period.
  now rewrite (ord2ymd_toordinal_cycle _ Hv0 Hy0).
Qed.

(** ** Doubles: rounding and truncation *)

Lemma round_half_even_bounds (num den : Z) :
  0 < den ->
  2 * num - den <= 2 * (den * round_half_even num den) <= 2 * num + den.
Proof.
  intros Hden. unfold round_half_even.
  pose proof (Z.div_mod num den ltac:(lia)) as Hdm.
  pose proof (Z.mod_pos_bound num den Hden) as Hr.
  destruct (Z.ltb_spec (2 * (num mod den)) den).
  - lia.
  - destruct (Z.ltb_spec den (2 * (num mod den))).
    + lia.
    + destruct (Z.even (num / den)); lia.
Qed.

Lemma round_half_even_exact (q den : Z) :
  0 < den -> round_half_even (q * den) den = q.
Proof.
  intros Hden. unfold round_half_even.
  rewrite Z.mod_mul, Z.div_mul by lia.
  destruct (Z.ltb_spec (2 * 0) den); [reflexivity | lia].
Qed.

Lemma floor_log2_ratio_upper (a d B : Z) :
  0 < a -> 0 < d -> 0 <= B -> a < d * 2 ^ B -> floor_log2_ratio a d < B.
Proof.
  intros Ha Hd HB Hlt. unfold floor_log2_ratio.
  destruct (Z.leb_spec 0 (Z.log2 a - Z.log2 d)) as [He0 | He0].
  - destruct (Z.leb_spec (d * 2 ^ (Z.log2 a - Z.log2 d)) a) as [Habove | Habove].
    + apply (Z.pow_lt_mono_r_iff 2); [lia | lia |]. nia.
    + pose proof (Z.log2_spec a Ha) as [Hla _].
      pose proof (Z.log2_spec d Hd) as [_ Hld].
      assert (2 ^ Z.log2 a < 2 ^ (Z.succ (Z.log2 d) + B)).
      { rewrite Z.pow_add_r by (pose proof (Z.log2_nonneg d); lia). nia. }
      apply Z.pow_lt_mono_r_iff in H; [lia | lia |].
      pose proof (Z.log2_nonneg d). lia.
  - destruct (d <=? a * 2 ^ (- (Z.log2 a - Z.log2 d))); lia.
Qed.

Lemma int_of_float_whole (s : Z) :
  0 <= s < 2 ^ 34 -> int_of_float (float_of_ratio (s * 10 ^ 6) (10 ^ 6)) = s.
Proof.
  intros Hs. unfold float_of_ratio.
  destruct (Z.eqb_spec (s * 10 ^ 6) 0) as [H0 | H0].
  - unfold int_of_float. simpl. lia.
  - assert (Hpos : 0 < s) by lia.
    rewrite Z.abs_eq by lia.
    pose proof (floor_log2_ratio_upper (s * 10 ^ 6) (10 ^ 6) 34
                  ltac:(lia) ltac:(lia) ltac:(lia) ltac:(lia)) as Hf.
    set (e := floor_log2_ratio (s * 10 ^ 6) (10 ^ 6) - 52) in *.
    assert (He : e < 0) by lia.
    destruct (Z.leb_spec 0 e); [lia |].
    unfold int_of_float. cbn [fl_neg fl_mant fl_exp].
    destruct (Z.leb_spec 0 e); [lia |].
    destruct (Z.ltb_spec (s * 10 ^ 6) 0); [lia |].
    replace (s * 10 ^ 6 * 2 ^ (- e)) with (s * 2 ^ (- e) * 10 ^ 6) by ring.
    rewrite round_half_even_exact by lia.
    apply Z.div_mul. pose proof (Z.pow_pos_nonneg 2 (- e)). lia.
Qed.

Lemma int_of_float_last_microsecond (s : Z) :
  0 <= s -> s + 1 <= 2 ^ 34 ->
  int_of_float (float_of_ratio (s * 10 ^ 6 + 999999) (10 ^ 6)) = s.
Proof.
  intros Hs Hmax. unfold float_of_ratio.
  destruct (Z.eqb_spec (s * 10 ^ 6 + 999999) 0) as [H0 | H0]; [lia |].
  rewrite Z.abs_eq by lia.
  pose proof (floor_log2_ratio_upper (s * 10 ^ 6 + 999999) (10 ^ 6) 34
                ltac:(lia) ltac:(lia) ltac:(lia) ltac:(lia)) as Hf.
  set (e := floor_log2_ratio (s * 10 ^ 6 + 999999) (10 ^ 6) - 52) in *.
  assert (He : e <= - 19) by lia.
  destruct (Z.leb_spec 0 e); [lia |].
  unfold int_of_float. cbn [fl_neg fl_mant fl_exp].
  destruct (Z.leb_spec 0 e); [lia |].
  destruct (Z.ltb_spec (s * 10 ^ 6 + 999999) 0); [lia |].
  assert (HP : 2 ^ 19 <= 2 ^ (- e)) by (apply Z.pow_le_mono_r; lia).
  set (P := 2 ^ (- e)) in *.
  pose proof (round_half_even_bounds ((s * 10 ^ 6 + 999999) * P) (10 ^ 6)
                ltac:(lia)) as [Hlo Hhi].
  set (m := round_half_even ((s * 10 ^ 6 + 999999) * P) (10 ^ 6)) in *.
  change (10 ^ 6) with 1000000 in *. change (2 ^ 19) with 524288 in HP.
  symmetry. apply (Z.div_unique m P s (m - s * P)); [| lia].
  left. nia.
Qed.


#[local] Arguments ord2ymd : simpl never.
#[local] Arguments toordinal : simpl never.

Lemma date_ltb_total (a b : date) :
  date_ltb a b = false -> a = b \/ date_ltb b a = true.
Proof.
  destruct a as [y1 m1 d1], b as [y2 m2 d2]. unfold date_ltb.
  cbn [year month day].
  destruct (Z.ltb_spec y1 y2), (Z.eqb_spec y1 y2), (Z.ltb_spec y2 y1),
    (Z.eqb_spec y2 y1); try lia; cbn [orb andb]; try discriminate; auto.
  destruct (Z.ltb_spec m1 m2), (Z.eqb_spec m1 m2), (Z.ltb_spec m2 m1),
    (Z.eqb_spec m2 m1); try lia; cbn [orb andb]; try discriminate; auto.
  destruct (Z.ltb_spec d1 d2), (Z.ltb_spec d2 d1); try discriminate; auto.
  intros _. left. f_equal; lia.
Qed.

Lemma date_leb_toordinal (a b : date) :
  valid_date a = true -> valid_date b = true ->
  date_leb a b = true -> toordinal a <= toordinal b.
Proof.
  intros Ha Hb H. unfold date_leb in H. apply negb_true_iff in H.
  destruct (date_ltb_total b a H) as [-> | Hlt]; [lia |].
  pose proof (toordinal_lt a b Ha Hb Hlt). lia.
Qed.

Lemma exact_range_days (d : date) :
  valid_date d = true -> in_exact_range d = true ->
  0 <= toordinal d - EPOCH_ORDINAL <= 198840.
Proof.
  intros Hv H. unfold in_exact_range in H. apply andb_true_iff in H.
  destruct H as [H1 H2].
  apply date_leb_toordinal in H1; [| vm_compute; reflexivity | exact Hv].
  apply date_leb_toordinal in H2; [| exact Hv | vm_compute; reflexivity].
  change (toordinal FIRST_EXACT_DAY) with 719163 in H1.
  change (toordinal LAST_EXACT_DAY) with 918003 in H2.
  unfold EPOCH_ORDINAL. lia.
Qed.

Lemma start_epoch_exact (d : date) :
  0 <= toordinal d - EPOCH_ORDINAL <= 198840 ->
  start_epoch d = (toordinal d - EPOCH_ORDINAL) * 86400.
Proof.
  intros H. unfold start_epoch, timestamp, total_microseconds.
  cbn [time_min second minute hour microsecond].
  replace (((toordinal d - EPOCH_ORDINAL) * 86400 + (0 + 0 * 60 + 0 * 3600))
           * 10 ^ 6 + 0)
    with ((toordinal d - EPOCH_ORDINAL) * 86400 * 10 ^ 6) by ring.
  apply int_of_float_whole. change (2 ^ 34) with 17179869184. lia.
Qed.

Lemma end_epoch_exact (d : date) :
  0 <= toordinal d - EPOCH_ORDINAL <= 198840 ->
  end_epoch d = (toordinal d - EPOCH_ORDINAL) * 86400 + 86399.
Proof.
  intros H. unfold end_epoch, timestamp, total_microseconds.
  cbn [time_max second minute hour microsecond].
  replace (((toordinal d - EPOCH_ORDINAL) * 86400 + (59 + 59 * 60 + 23 * 3600))
           * 10 ^ 6 + 999999)
    with (((toordinal d - EPOCH_ORDINAL) * 86400 + 86399) * 10 ^ 6 + 999999)
    by ring.
  apply int_of_float_last_microsecond; change (2 ^ 34) with 17179869184; lia.
Qed.

Lemma calendar_of_day_second (d : date) (h mi s : Z) :
  valid_date d = true ->
  0 <= h < 24 -> 0 <= mi < 60 -> 0 <= s < 60 ->
  calendar_of_epoch
    ((toordinal d - EPOCH_ORDINAL) * 86400 + (h * 3600 + mi * 60 + s))
  = mkCal d h mi s.
Proof.
  intros Hv Hh Hmi Hs. unfold calendar_of_epoch.
  set (r := h * 3600 + mi * 60 + s).
  assert (Hr : 0 <= r < 86400) by (subst r; lia).
  replace ((toordinal d - EPOCH_ORDINAL) * 86400 + r)
    with (r + (toordinal d - EPOCH_ORDINAL) * 86400) by ring.
  rewrite Z_div_plus_full, Z_mod_plus_full by lia.
  rewrite (Z.div_small r), (Z.mod_small r) by lia.
  replace (0 + (toordinal d - EPOCH_ORDINAL) + EPOCH_ORDINAL)
    with (toordinal d) by ring.
  rewrite (ord2ymd_toordinal d Hv).
  f_equal; subst r; Z.div_mod_to_equations; lia.
Qed.

(** C4. For every endpoint that takes dates and every pair of dates picked
    between 1970-01-01 and 2514-05-29, the [starttime] parameter is the
    epoch second of the start date at 00:00:00 UTC, and the [endtime]
    parameter is the end date's 23:59:59.999999 UTC cut to whole seconds,
    which is the epoch second of 23:59:59 on that date; for 2024-01-01 the
    two are 1704067200 and 1704153599. *)
Theorem epoch_bounds_of_selected_dates (ep : endpoint) (inp : form_inputs) :
  In "dates" (ep_params ep) ->
  valid_date (in_start inp) = true ->
  valid_date (in_end inp) = true ->
  in_exact_range (in_start inp) = true ->
  in_exact_range (in_end inp) = true ->
  (Dict.get "starttime" (params (build_form ep inp))
   = Some (PInt (start_epoch (in_start inp)))
   /\ start_epoch (in_start inp)
      = (toordinal (in_start inp) - EPOCH_ORDINAL) * 86400
   /\ calendar_of_epoch (start_epoch (in_start inp))
      = mkCal (in_start inp) 0 0 0)
  /\ (Dict.get "endtime" (params (build_form ep inp))
      = Some (PInt (end_epoch (in_end inp)))
      /\ end_epoch (in_end inp)
         = Z.quot (total_microseconds (in_end inp) time_max) (10 ^ 6)
      /\ end_epoch (in_end inp)
         = (toordinal (in_end inp) - EPOCH_ORDINAL) * 86400 + 86399
      /\ calendar_of_epoch (end_epoch (in_end inp))
         = mkCal (in_end inp) 23 59 59)
  /\ start_epoch (mkDate 2024 1 1) = 1704067200
  /\ end_epoch (mkDate 2024 1 1) = 1704153599.
Proof.
  intros Hd Hs He Rs Re.
  destruct (form_epoch_params ep inp Hd) as [Pstart Pend].
  pose proof (exact_range_days _ Hs Rs) as Ds.
  pose proof (exact_range_days _ He Re) as De.
  split; [split; [exact Pstart | split] | split; [split; [exact Pend | split; [| split]] | split]].
  - apply start_epoch_exact, Ds.
  - rewrite (start_epoch_exact _ Ds).
    replace ((toordinal (in_start inp) - EPOCH_ORDINAL) * 86400)
      with ((toordinal (in_start inp) - EPOCH_ORDINAL) * 86400
            + (0 * 3600 + 0 * 60 + 0))
      by ring.
    apply calendar_of_day_second; [exact Hs | lia | lia | lia].
  - rewrite (end_epoch_exact _ De).
    unfold total_microseconds. cbn [time_max second minute hour microsecond].
    change (10 ^ 6) with 1000000.
    apply Z.quot_unique with (r := 999999); lia.
  - apply end_epoch_exact, De.
  - rewrite (end_epoch_exact _ De).
    replace ((toordinal (in_end inp) - EPOCH_ORDINAL) * 86400 + 86399)
      with ((toordinal (in_end inp) - EPOCH_ORDINAL) * 86400
            + (23 * 3600 + 59 * 60 + 59))
      by ring.
    apply calendar_of_day_second; [exact He | lia | lia | lia].
  - vm_compute. reflexivity.
  - vm_compute. reflexivity.
Qed.

Lemma epoch_bounds_of_selected_dates_witness :
  Dict.get "starttime"
    (params (build_form ep_power_quality_interval
               (mkInputs "E1" new_year_2024 new_year_2024 0)))
  = Some (PInt 1704067200)
  /\ Dict.get "endtime"
       (params (build_form ep_power_quality_interval
                  (mkInputs "E1" new_year_2024 new_year_2024 0)))
     = Some (PInt 1704153599).
Proof.
  destruct (epoch_bounds_of_selected_dates ep_power_quality_interval
              (mkInputs "E1" new_year_2024 new_year_2024 0)
              ltac:(simpl; tauto) eq_refl eq_refl eq_refl eq_refl)
    as [[Hstart _] [[Hend _] _]].
  split; [exact Hstart | exact Hend].
Defined.

(** Outside that range the last microsecond of the day is not cut to
    23:59:59.  Before the epoch, truncation goes towards zero: the end of
    1969-12-31 is second 0.  From 2514-05-30 on, the double nearest to the
    last microsecond is the next midnight. *)
Example end_epoch_before_1970 : end_epoch (mkDate 1969 12 31) = 0.
Proof. vm_compute. reflexivity. Qed.

Example end_epoch_after_2514 :
  end_epoch (mkDate 2514 5 30) = start_epoch (mkDate 2514 5 31).
Proof. vm_compute. reflexivity. Qed.

(** C9. For every endpoint of the registry that takes a granularity and
    every pair of dates with the end date before the start date, the span
    in days is negative, the granularity box offers the five options of a
    same-day range, and the two epoch parameters are those of the two dates
    as picked; nothing stops the request: with a device id given and the
    API key configured it is sent, carrying these parameters.  Within the
    range of exact conversion its [endtime] is then below its
    [starttime]. *)
Theorem inverted_range_passed_through (ep : endpoint) (inp : form_inputs) :
  In ep endpoints ->
  In "granularity" (ep_params ep) ->
  valid_date (in_start inp) = true ->
  valid_date (in_end inp) = true ->
  date_ltb (in_end inp) (in_start inp) = true ->
  date_diff_days (in_end inp) (in_start inp) < 0
  /\ offered_granularities
       (dates_block ep inp (device_block ep inp initial_form))
     = Some ["1m"; "5m"; "15m"; "1h"; "daily"]
  /\ Dict.get "starttime" (params (build_form ep inp))
     = Some (PInt (start_epoch (in_start inp)))
  /\ Dict.get "endtime" (params (build_form ep inp))
     = Some (PInt (end_epoch (in_end inp)))
  /\ (forall rt sec server r,
        In r (sent_requests (render_and_fetch rt sec ep inp server)) ->
        req_params r = params (build_form ep inp))
  /\ (forall rt sec server key,
        in_device inp <> "" ->
        configured_api_key sec = Some key ->
        sent_requests (render_and_fetch rt sec ep inp server)
        = [mkRequest (full_url (build_form ep inp)) key
                     (params (build_form ep inp))])
  /\ (in_exact_range (in_start inp) = true ->
      in_exact_range (in_end inp) = true ->
      end_epoch (in_end inp) < start_epoch (in_start inp)).
Proof.
  intros Hin Hg Hs He Hlt.
  pose proof (registry_granularity_needs_dates ep Hin Hg) as Hd.
  pose proof (toordinal_lt _ _ He Hs Hlt) as Hord.
  assert (Hspan : date_diff_days (in_end inp) (in_start inp) < 0).
  { unfold date_diff_days. lia. }
  destruct (form_epoch_params ep inp Hd) as [Pstart Pend].
  split; [exact Hspan |].
  split; [| split; [exact Pstart | split; [exact Pend | split; [| split]]]].
  - rewrite (form_dates_rendered _ _ _ Hd). unfold granularity_options.
    destruct (Z.ltb_spec (date_diff_days (in_end inp) (in_start inp)) 1);
      [reflexivity | lia].
  - intros rt sec server r Hr. unfold render_and_fetch in Hr.
    rewrite fetch_click_requests in Hr.
    destruct (fst (validate ep (build_form ep inp))); [| contradiction].
    destruct (configured_api_key sec) as [key |]; [| contradiction].
    destruct Hr as [<- | []]. reflexivity.
  - intros rt sec server key Hdev Hkey. unfold render_and_fetch.
    rewrite fetch_click_requests, validate_outcome. cbn [fst].
    unfold complaints. rewrite (form_device_serialid ep inp Hin).
    apply str_truthy_nonempty in Hdev. now rewrite Hdev, Hkey.
  - intros Rs Re.
    rewrite (start_epoch_exact _ (exact_range_days _ Hs Rs)).
    rewrite (end_epoch_exact _ (exact_range_days _ He Re)). lia.
Qed.

(** From 2024-01-08 back to 2024-01-01: the request goes out as it is. *)
Lemma inverted_range_passed_through_witness :
  offered_granularities
    (dates_block ep_power_quality_interval
       (mkInputs "E1" (mkDate 2024 1 8) new_year_2024 0)
       (device_block ep_power_quality_interval
          (mkInputs "E1" (mkDate 2024 1 8) new_year_2024 0) initial_form))
  = Some ["1m"; "5m"; "15m"; "1h"; "daily"]
  /\ sent_requests
       (render_and_fetch sample_runtime sample_secrets
          ep_power_quality_interval
          (mkInputs "E1" (mkDate 2024 1 8) new_year_2024 0)
          (fun _ => HttpOk (JArr [])))
     = [mkRequest
          "https://v3.edgezeroapi.com/pienergy/powerquality/interval/E1"
          "k3y"
          [("starttime", PInt 1704672000); ("endtime", PInt 1704153599);
           ("granularity", PStr "1m")]].
Proof.
  destruct (inverted_range_passed_through ep_power_quality_interval
              (mkInputs "E1" (mkDate 2024 1 8) new_year_2024 0)
              ltac:(unfold endpoints, ep_power_quality_interval; simpl; tauto)
              ltac:(simpl; tauto) eq_refl eq_refl eq_refl)
    as [_ [Hopt [_ [_ [_ [Hsent _]]]]]].
  split; [exact Hopt |].
  exact (Hsent sample_runtime sample_secrets (fun _ => HttpOk (JArr []))
           "k3y" ltac:(discriminate) eq_refl).
Defined.

(** ** The response formatter *)

Lemma unique_names_NoDup (names : list string) :
  unique_names names = true -> NoDup names.
Proof.
  induction names as [| n rest IH]; simpl; intros H.
  - constructor.
  - apply andb_true_iff in H. destruct H as [H1 H2]. constructor.
    + apply negb_true_iff in H1. now apply str_in_list_not_In.
    + now apply IH.
Qed.

Lemma str_length_append (a b : string) :
  String.length (a ++ b) = (String.length a + String.length b)%nat.
Proof. induction a as [| c a IH]; simpl; [reflexivity | now rewrite IH]. Qed.

Lemma readable_name_inj (a b : string) :
  readable_name a = readable_name b -> a = b.
Proof.
  unfold readable_name. revert b.
  induction a as [| c a IH]; intros [| c' b] H; simpl in H.
  - reflexivity.
  - exfalso. apply (f_equal String.length) in H.
    simpl in H. rewrite str_length_append in H. simpl in H. lia.
  - exfalso. apply (f_equal String.length) in H.
    simpl in H. rewrite str_length_append in H. simpl in H. lia.
  - injection H as -> H. f_equal. now apply IH.
Qed.

Lemma keys_app {V : Type} (d d' : Dict.t V) :
  Dict.keys (d ++ d') = Dict.keys d ++ Dict.keys d'.
Proof. apply map_app. Qed.

Lemma derived_columns_keys (df : frame) (k : string) :
  In k (Dict.keys (derived_columns df)) ->
  exists n, In n (Dict.keys df) /\ k = readable_name n.
Proof.
  unfold derived_columns, Dict.keys. rewrite in_map_iff.
  intros [[k' v] [Hk Hin]]. simpl in Hk. subst k'.
  apply in_flat_map in Hin. destruct Hin as [[n c] [Hn Hd]].
  cbn [fst snd] in Hd.
  destruct (time_like n && is_numeric_dtype c); [| contradiction].
  destruct Hd as [Hd | []]. injection Hd as Hk _.
  exists n. split; [| now symmetry].
  apply in_map_iff. now exists (n, c).
Qed.

Lemma fresh_readable_names_spec (df : frame) (name : string) :
  fresh_readable_names df = true ->
  In name (Dict.keys df) -> time_like name = true ->
  Dict.get (readable_name name) df = None.
Proof.
  unfold fresh_readable_names. rewrite forallb_forall. intros H Hin Ht.
  specialize (H name Hin). rewrite Ht in H. unfold Dict.mem in H.
  now destruct (Dict.get (readable_name name) df).
Qed.

Lemma readable_step_spec (df done rest : frame) (name : string) (c : column) :
  unique_names (Dict.keys df) = true ->
  fresh_readable_names df = true ->
  df = done ++ (name, c) :: rest ->
  readable_step (df ++ derived_columns done) name
  = df ++ derived_columns (done ++ [(name, c)]).
Proof.
  intros Hu Hf Hdf. apply unique_names_NoDup in Hu.
  assert (Hnot : ~ In name (Dict.keys done)).
  { rewrite Hdf, keys_app in Hu. simpl in Hu.
    apply NoDup_remove_2 in Hu. intros Hin. apply Hu.
    apply in_or_app. now left. }
  assert (Hget : Dict.get name df = Some c).
  { rewrite Hdf. rewrite DictFacts.get_app_r.
    - simpl. now rewrite String.eqb_refl.
    - now apply DictFacts.get_None_not_key. }
  unfold derived_columns at 2. rewrite flat_map_app. cbn [flat_map fst snd].
  fold (derived_columns done). rewrite app_nil_r.
  unfold readable_step.
  destruct (time_like name) eqn:Ht; cbn [andb];
    [| now rewrite app_nil_r].
  rewrite (DictFacts.get_app_l _ _ _ _ Hget).
  destruct (is_numeric_dtype c); [| now rewrite app_nil_r].
  fold (readable_name name).
  rewrite DictFacts.set_absent; [now rewrite <- app_assoc |].
  rewrite DictFacts.get_app_r.
  - apply DictFacts.get_None_not_key. intros Hin.
    apply derived_columns_keys in Hin. destruct Hin as [n [Hn Heq]].
    apply readable_name_inj in Heq. now subst n.
  - apply fresh_readable_names_spec; [exact Hf | | exact Ht].
    rewrite Hdf, keys_app. apply in_or_app. right. now left.
Qed.

Lemma add_readable_columns_spec (df : frame) :
  unique_names (Dict.keys df) = true ->
  fresh_readable_names df = true ->
  add_readable_columns df = df ++ derived_columns df.
Proof.
  intros Hu Hf. unfold add_readable_columns.
  assert (Hgen : forall rest done,
            df = done ++ rest ->
            fold_left readable_step (Dict.keys rest) (df ++ derived_columns done)
            = df ++ derived_columns df).
  { induction rest as [| [name c] rest IH]; intros done Hdf.
    - rewrite app_nil_r in Hdf. now subst done.
    - cbn [Dict.keys map fst fold_left].
      rewrite (readable_step_spec df done rest name c Hu Hf Hdf).
      apply IH. now rewrite <- app_assoc. }
  specialize (Hgen df [] eq_refl). cbn [derived_columns flat_map] in Hgen.
  now rewrite app_nil_r in Hgen.
Qed.

(** *** Every ordinal is the ordinal of its date *)

Lemma valid_month_day_period (d : date) (k : Z) :
  valid_month_day (shift_years k d) = valid_month_day d.
Proof.
  unfold valid_month_day, shift_years, days_in_month. cbn [year month day].
  now rewrite is_leap_period.
Qed.

(** Checked on the ordinals 1 to 146400, which cover one cycle of 400
    years, by running the two conversions on each of them. *)
Lemma ordinal_cycle :
  forallb (fun a => forallb (fun b => ordinal_ok (1 + 400 * a + b)) (Zrange 0 400))
          (Zrange 0 366)
  = true.
Proof. vm_cast_no_check (eq_refl true). Qed.

Lemma toordinal_ord2ymd (n : Z) :
  valid_month_day (ord2ymd n) = true /\ toordinal (ord2ymd n) = n.
Proof.
  pose (k := (n - 1) / DI400Y).
  pose (n0 := n - DI400Y * k).
  assert (Hn0 : 1 <= n0 <= 146097).
  { subst n0 k. unfold DI400Y. Z.div_mod_to_equations. lia. }
  pose (a := (n0 - 1) / 400). pose (b := (n0 - 1) mod 400).
  assert (Hab : n0 = 1 + 400 * a + b /\ 0 <= a < 366 /\ 0 <= b < 400).
  { subst a b. Z.div_mod_to_equations. lia. }
  destruct Hab as [Hsplit [Ha Hb]].
  pose proof (forallb_Zrange _ _ _ ordinal_cycle a ltac:(lia)) as Hrow.
  cbv beta in Hrow.
  pose proof (forallb_Zrange _ _ _ Hrow b ltac:(lia)) as Hok.
  cbv beta in Hok. clear Hrow. rewrite <- Hsplit in Hok.
  unfold ordinal_ok in Hok. apply andb_true_iff in Hok.
  destruct Hok as [Hvalid Hord]. apply Z.eqb_eq in Hord.
  replace n with (n0 + DI400Y * k) by (subst n0; ring).
  rewrite ord2ymd_period, valid_month_day_period, toordinal_period, Hord.
  split; [exact Hvalid | reflexivity].
Qed.

(** A month and day that exist, with an ordinal of the years 1 to 9999,
    make a valid date. *)
Lemma valid_date_of_ordinal (d : date) :
  valid_month_day d = true -> 1 <= toordinal d <= 3652059 ->
  valid_date d = true.
Proof.
  destruct d as [y m dd]. unfold valid_month_day, toordinal, ymd2ord.
  cbn [year month day]. intros Hmd Hord.
  apply valid_date_spec. cbn [year month day].
  apply andb_true_iff in Hmd. destruct Hmd as [Hmd Hd2].
  apply andb_true_iff in Hmd. destruct Hmd as [Hmd Hd1].
  apply andb_true_iff in Hmd. destruct Hmd as [Hm1 Hm2].
  apply Z.leb_le in Hm1, Hm2, Hd1, Hd2.
  assert (Hm : 1 <= m <= 12) by lia.
  assert (Hd : 1 <= dd <= days_in_month y m) by lia.
  split; [| split; [exact Hm | exact Hd]].
  pose proof (day_of_year_bounds _ _ _ Hm Hd) as Hdoy.
  pose proof (days_before_year_succ y) as Hsucc.
  assert (Hfirst : days_before_year 1 = 0) by reflexivity.
  assert (Hlast : days_before_year 10000 = 3652059) by reflexivity.
  split.
  - destruct (Z_lt_le_dec y 1) as [Hlow | Hok]; [| exact Hok].
    pose proof (days_before_year_mono (y + 1) 1 ltac:(lia)) as Hmono. lia.
  - destruct (Z_lt_le_dec 9999 y) as [Hhigh | Hok]; [| lia].
    pose proof (days_before_year_mono 10000 y ltac:(lia)) as Hmono. lia.
Qed.

Lemma ord2ymd_valid (n : Z) :
  1 <= n <= 3652059 -> valid_date (ord2ymd n) = true.
Proof.
  intros Hn. destruct (toordinal_ord2ymd n) as [Hmd Hord].
  apply valid_date_of_ordinal; [exact Hmd |].
  rewrite Hord. exact Hn.
Qed.

(** Within the range of nanosecond timestamps, the conversion shows a valid
    date and time of day whose epoch second is the one converted. *)
Lemma calendar_of_epoch_reads (t : Z) :
  in_ns_range t = true -> reads_second t (Some (calendar_of_epoch t)).
Proof.
  unfold in_ns_range, DATETIME64_MAX_SECONDS. intros Ht.
  apply andb_true_iff in Ht. destruct Ht as [Hlo Hhi].
  apply Z.leb_le in Hlo, Hhi.
  exists (calendar_of_epoch t). split; [reflexivity |].
  unfold valid_calendar, epoch_of_calendar, calendar_of_epoch.
  cbn [cal_date cal_hour cal_minute cal_second].
  set (q := t / 86400). set (r := t mod 86400).
  assert (Hq : t = 86400 * q + r) by (subst q r; apply Z.div_mod; lia).
  assert (Hr : 0 <= r < 86400) by (subst r; apply Z.mod_pos_bound; lia).
  assert (Hn : 1 <= q + EPOCH_ORDINAL <= 3652059) by (unfold EPOCH_ORDINAL; lia).
  destruct (toordinal_ord2ymd (q + EPOCH_ORDINAL)) as [_ Hord].
  rewrite (ord2ymd_valid _ Hn), Hord. split.
  - repeat (apply andb_true_iff; split); try reflexivity;
      try apply Z.leb_le; try apply Z.ltb_lt;
      Z.div_mod_to_equations; lia.
  - Z.div_mod_to_equations. lia.
Qed.

Lemma int_column_reads (vs : list Z) :
  forallb in_ns_range vs = true ->
  Forall2 reads_second vs (map (fun s => Some (calendar_of_epoch s)) vs).
Proof.
  induction vs as [| v vs IH]; cbn [forallb map]; intros H.
  - constructor.
  - apply andb_true_iff in H. destruct H as [Hv H]. constructor.
    + now apply calendar_of_epoch_reads.
    + now apply IH.
Qed.

Lemma float_column_reads (vs : list float_cell) :
  forallb float_cell_in_ns_range vs = true ->
  forallb float_cell_whole vs = true ->
  Forall2 reads_float_cell vs (map read_float_cell vs).
Proof.
  induction vs as [| v vs IH]; cbn [forallb map]; intros H W.
  - constructor.
  - apply andb_true_iff in H. destruct H as [Hv H].
    apply andb_true_iff in W. destruct W as [Wv W]. constructor.
    + destruct v as [| t | x]; cbn [reads_float_cell read_float_cell].
      * reflexivity.
      * now apply calendar_of_epoch_reads.
      * exact I.
    + now apply IH.
Qed.

Lemma bool_column_nulls (vs : list bool) :
  map (fun _ : bool => @None calendar_time) vs = repeat None (List.length vs).
Proof.
  induction vs as [| v vs IH]; cbn [map List.length repeat];
    [reflexivity | now rewrite IH].
Qed.

(** *** Conversions that cannot raise *)

Lemma to_datetime_in_ns_range (c : column) :
  column_in_ns_range (to_datetime c) = true.
Proof.
  destruct c as [vs | vs | vs | vs | vs | src]; cbn [to_datetime];
    try reflexivity.
  - destruct (column_in_ns_range (ColInt vs)); reflexivity.
  - destruct (column_in_ns_range (ColFloat vs) && column_whole (ColFloat vs));
      reflexivity.
Qed.

Lemma frame_in_ns_range_get (df : frame) (k : string) (c : column) :
  frame_in_ns_range df = true -> Dict.get k df = Some c ->
  column_in_ns_range c = true.
Proof.
  unfold frame_in_ns_range. induction df as [| [k0 c0] df IH]; [discriminate |].
  cbn [forallb Dict.get snd]. intros H Hget.
  apply andb_true_iff in H. destruct H as [H0 H].
  destruct (String.eqb k k0).
  - now injection Hget as <-.
  - now apply IH.
Qed.

Lemma frame_in_ns_range_set (df : frame) (k : string) (c : column) :
  frame_in_ns_range df = true -> column_in_ns_range c = true ->
  frame_in_ns_range (Dict.set k c df) = true.
Proof.
  unfold frame_in_ns_range. intros H Hc.
  induction df as [| [k0 c0] df IH]; cbn [Dict.set forallb snd].
  - now rewrite Hc.
  - cbn [forallb snd] in H. apply andb_true_iff in H. destruct H as [H0 H].
    destruct (String.eqb k k0); cbn [forallb snd].
    + now rewrite Hc, H.
    + now rewrite H0, IH.
Qed.

Lemma no_conversion_error (rt : runtime) (names : list string) (df : frame) :
  frame_in_ns_range df = true -> first_conversion_error rt names df = None.
Proof.
  revert df. induction names as [| name names IH]; intros df H;
    cbn [first_conversion_error]; [reflexivity |].
  assert (Hstep : readable_step_error rt df name = None).
  { unfold readable_step_error, conversion_error.
    destruct (time_like name); [| reflexivity].
    destruct (Dict.get name df) as [c |] eqn:Hget; [| reflexivity].
    destruct (is_numeric_dtype c); [| reflexivity].
    now rewrite (frame_in_ns_range_get df name c H Hget). }
  rewrite Hstep. apply IH. unfold readable_step.
  destruct (time_like name); [| exact H].
  destruct (Dict.get name df) as [c |]; [| exact H].
  destruct (is_numeric_dtype c); [| exact H].
  apply frame_in_ns_range_set; [exact H | apply to_datetime_in_ns_range].
Qed.

Lemma derived_columns_get (df : frame) (name : string) (c : column) :
  unique_names (Dict.keys df) = true ->
  Dict.get name df = Some c ->
  Dict.get (readable_name name) (derived_columns df)
  = if time_like name && is_numeric_dtype c then Some (to_datetime c)
    else None.
Proof.
  induction df as [| [n0 c0] df IH]; intros Hu Hget; [discriminate |].
  cbn [Dict.keys map fst unique_names] in Hu.
  apply andb_true_iff in Hu. destruct Hu as [Hn0 Hu].
  apply negb_true_iff, str_in_list_not_In in Hn0.
  unfold derived_columns. cbn [flat_map fst snd]. fold (derived_columns df).
  simpl in Hget. destruct (String.eqb name n0) eqn:E.
  - apply String.eqb_eq in E. subst n0. injection Hget as ->.
    destruct (time_like name && is_numeric_dtype c).
    + simpl. now rewrite String.eqb_refl.
    + simpl. apply DictFacts.get_None_not_key. intros Hin.
      apply derived_columns_keys in Hin. destruct Hin as [n [Hn Heq]].
      apply readable_name_inj in Heq. subst n. now apply Hn0.
  - rewrite DictFacts.get_app_r; [now apply IH |].
    destruct (time_like n0 && is_numeric_dtype c0); [| reflexivity].
    simpl. destruct (String.eqb (readable_name name) (readable_name n0)) eqn:E';
      [| reflexivity].
    apply String.eqb_eq, readable_name_inj in E'. subst n0.
    now rewrite String.eqb_refl in E.
Qed.




(** The second row has no [updated] key: its derived cell is null, the
    first one shows the last second of 2024-01-01. *)
Example gap_column_readable :
  Dict.get "updated_readable" (add_readable_columns sample_gap_frame)
  = Some (ColDatetime [Some (mkCal (mkDate 2024 1 1) 23 59 59); None]).
Proof. vm_compute. reflexivity. Qed.

(** On the frame of the counterexample nothing is added and nothing
    fails: the export goes on with the frame as it came. *)
Example text_column_left_alone :
  add_readable_columns sample_text_frame = sample_text_frame.
Proof. reflexivity. Qed.

(** Beyond the nanosecond range the outcome is the pandas's: where
    [to_datetime] raises, the failure is reported and nothing is offered for
    download; where it does not, the export has a derived column whose
    cells are not spelled out. *)
Example far_column_outcomes :
  handle_payload (sample_far_runtime true) ep_devices (JArr [JObj [("endtime", JInt 99999999999)]; JObj []])
  = [ EvSuccess "Data fetched successfully!"
    ; EvLog "An unexpected error occurred: OverflowError"
    ; EvError "An unexpected error occurred: OverflowError" ]
  /\ handle_payload (sample_far_runtime false) ep_devices (JArr [JObj [("endtime", JInt 99999999999)]; JObj []])
     = [ EvSuccess "Data fetched successfully!"
       ; EvDownload "devices_20240101_120000.csv"
           [ ("endtime", ColFloat [FWhole 99999999999; FNaN])
           ; ("endtime_readable",
              ColDatetimeOf (ColFloat [FWhole 99999999999; FNaN])) ] ].
Proof. split; vm_compute; reflexivity. Qed.

(* ================================================================= *)
(** * Part III: further properties of the script *)
(* ================================================================= *)

(** ** The session *)

Lemma login_submit_outcome (sec : secrets) (st : session_state)
    (u p : string) :
  logged_in (fst (login_submit sec st u p))
  = credentials_accepted sec u p || logged_in st
  /\ sent_requests (snd (login_submit sec st u p)) = []
  /\ offered_downloads (snd (login_submit sec st u p)) = [].
Proof.
  unfold login_submit, credentials_accepted.
  destruct (sec_credentials sec) as [c |]; [| now split].
  destruct (usernames c) as [us |]; [| now split].
  destruct (passwords c) as [ps |]; [| now split].
  destruct (str_in_list u us && str_in_list p ps); now split.
Qed.

Lemma selected_endpoint_in_registry (choice : nat) :
  exists ep, selected_endpoint choice = Some ep /\ In ep endpoints.
Proof.
  unfold selected_endpoint.
  destruct (selectbox_member endpoint_names choice ltac:(discriminate))
    as [name [Hsel Hin]].
  rewrite Hsel. unfold endpoint_names, endpoints in Hin. simpl in Hin.
  repeat (destruct Hin as [Hin | Hin];
          [subst name; eexists; split; [reflexivity | simpl; tauto] |]).
  contradiction.
Qed.

Lemma main_app_view (rt : runtime) (sec : secrets)
    (server : request -> http_result) (choice : nat) :
  sent_requests (main_app rt sec server choice None) = []
  /\ offered_downloads (main_app rt sec server choice None) = []
  /\ shown_errors (main_app rt sec server choice None) = [].
Proof.
  unfold main_app. destruct (selected_endpoint choice); now repeat split.
Qed.

Lemma sent_requests_app (a b : list ui_event) :
  sent_requests (a ++ b) = sent_requests a ++ sent_requests b.
Proof. apply flat_map_app. Qed.

Lemma offered_downloads_app (a b : list ui_event) :
  offered_downloads (a ++ b) = offered_downloads a ++ offered_downloads b.
Proof. apply flat_map_app. Qed.

Lemma shown_errors_app (a b : list ui_event) :
  shown_errors (a ++ b) = shown_errors a ++ shown_errors b.
Proof. apply flat_map_app. Qed.

Lemma logged_messages_app (a b : list ui_event) :
  logged_messages (a ++ b) = logged_messages a ++ logged_messages b.
Proof. apply flat_map_app. Qed.

(** One action in a logged-out session: nothing is fetched, and the
    session is logged in afterwards exactly when the action was a login
    with accepted credentials. *)
Lemma script_run_logged_out (rt : runtime) (sec : secrets)
    (server : request -> http_result) (st : session_state)
    (act : user_action) :
  logged_in st = false ->
  sent_requests (snd (script_run rt sec server st act)) = []
  /\ offered_downloads (snd (script_run rt sec server st act)) = []
  /\ logged_in (fst (script_run rt sec server st act))
     = match act with
       | ActLogin u p => credentials_accepted sec u p
       | _ => false
       end.
Proof.
  intros Hst. unfold script_run. rewrite Hst.
  destruct act as [u p | choice | choice inp |]; cbn [fst snd];
    try (now repeat split).
  destruct (login_submit_outcome sec st u p) as [Hflag [Hreq Hdl]].
  destruct (login_submit sec st u p) as [st' shown]. cbn [fst snd] in *.
  rewrite Hst, orb_false_r in Hflag.
  destruct (main_app_view rt sec server 0) as [Mreq [Mdl _]].
  destruct (logged_in st') eqn:E; cbn [fst snd].
  - rewrite sent_requests_app, offered_downloads_app, Hreq, Hdl, Mreq, Mdl.
    rewrite E. now repeat split.
  - rewrite E. now repeat split.
Qed.

(** A logged-out session stays logged out, and fetches nothing, until a
    login is accepted. *)
Lemma run_session_logged_out (rt : runtime) (sec : secrets)
    (server : request -> http_result) (st : session_state)
    (acts : list user_action) :
  logged_in st = false ->
  (forall u p, In (ActLogin u p) acts -> credentials_accepted sec u p = false) ->
  logged_in (fst (run_session rt sec server st acts)) = false
  /\ sent_requests (snd (run_session rt sec server st acts)) = []
  /\ offered_downloads (snd (run_session rt sec server st acts)) = [].
Proof.
  revert st. induction acts as [| act rest IH]; intros st Hst Hacts.
  - now repeat split.
  - cbn [run_session].
    destruct (script_run_logged_out rt sec server st act Hst)
      as [Hreq [Hdl Hflag]].
    destruct (script_run rt sec server st act) as [st' trace].
    cbn [fst snd] in *.
    assert (Hst' : logged_in st' = false).
    { rewrite Hflag. destruct act as [u p | | |]; try reflexivity.
      apply Hacts. now left. }
    destruct (IH st' Hst') as [F [R D]].
    { intros u p Hin. apply Hacts. now right. }
    destruct (run_session rt sec server st' rest) as [st'' trace'].
    cbn [fst snd] in *.
    rewrite sent_requests_app, offered_downloads_app, Hreq, Hdl, R, D.
    now repeat split.
Qed.

(** X2. In a session that starts logged out, as long as no login with
    accepted credentials is among the actions, the session stays logged
    out, no request is sent and no download is offered. *)
Theorem no_fetch_without_accepted_login (rt : runtime) (sec : secrets)
    (server : request -> http_result) (st : session_state)
    (acts : list user_action) :
  logged_in st = false ->
  (forall u p, In (ActLogin u p) acts -> credentials_accepted sec u p = false) ->
  logged_in (fst (run_session rt sec server st acts)) = false
  /\ sent_requests (snd (run_session rt sec server st acts)) = []
  /\ offered_downloads (snd (run_session rt sec server st acts)) = [].
Proof. apply run_session_logged_out. Qed.

Lemma no_fetch_without_accepted_login_witness :
  sent_requests
    (snd (run_session sample_runtime sample_secrets sample_server
            initial_session
            [ActLogin "alice" "wrong"; ActFetch 0 sample_inputs; ActLogout;
             ActView 3]))
  = [].
Proof.
  refine (proj1 (proj2
    (no_fetch_without_accepted_login sample_runtime sample_secrets
       sample_server initial_session
       [ActLogin "alice" "wrong"; ActFetch 0 sample_inputs; ActLogout;
        ActView 3] eq_refl _))).
  intros u p Hin. simpl in Hin.
  destruct Hin as [Hin | [Hin | [Hin | [Hin | []]]]]; try discriminate Hin.
  injection Hin as <- <-. reflexivity.
Defined.

(** X3. A logout leaves the flag false, whatever the session was; after it
    nothing is fetched and nothing offered for download, and the session
    stays logged out, until a login is accepted again. *)
Theorem logout_ends_access (rt : runtime) (sec : secrets)
    (server : request -> http_result) (st : session_state)
    (acts : list user_action) :
  (forall u p, In (ActLogin u p) acts -> credentials_accepted sec u p = false) ->
  logged_in (fst (script_run rt sec server st ActLogout)) = false
  /\ sent_requests (snd (run_session rt sec server st (ActLogout :: acts))) = []
  /\ offered_downloads
       (snd (run_session rt sec server st (ActLogout :: acts))) = []
  /\ logged_in (fst (run_session rt sec server st (ActLogout :: acts))) = false.
Proof.
  intros Hacts.
  assert (Hout : logged_in (fst (script_run rt sec server st ActLogout)) = false
                 /\ sent_requests (snd (script_run rt sec server st ActLogout)) = []
                 /\ offered_downloads
                      (snd (script_run rt sec server st ActLogout)) = []).
  { unfold script_run, logout.
    destruct (logged_in st) eqn:E; cbn [fst snd logged_in]; now repeat split. }
  destruct Hout as [Hflag [Hreq Hdl]]. split; [exact Hflag |].
  cbn [run_session].
  destruct (script_run rt sec server st ActLogout) as [st' trace].
  cbn [fst snd] in *.
  destruct (run_session_logged_out rt sec server st' acts Hflag Hacts)
    as [F [R D]].
  destruct (run_session rt sec server st' acts) as [st'' trace'].
  cbn [fst snd] in *.
  rewrite sent_requests_app, offered_downloads_app, Hreq, Hdl, R, D.
  now repeat split.
Qed.

Lemma logout_ends_access_witness :
  sent_requests
    (snd (run_session sample_runtime sample_secrets sample_server
            (mkSession true) [ActLogout; ActFetch 0 sample_inputs]))
  = [].
Proof.
  refine (proj1 (proj2
    (logout_ends_access sample_runtime sample_secrets sample_server
       (mkSession true) [ActFetch 0 sample_inputs] _))).
  intros u p Hin. simpl in Hin. destruct Hin as [Hin | []]. discriminate Hin.
Defined.

(** X4. From a fresh session, a login with accepted credentials followed
    by a click on the fetch button sends exactly the request the form built,
    when the validation passes and the API key is configured. *)
Theorem accepted_login_opens_fetch (rt : runtime) (sec : secrets)
    (server : request -> http_result) (u p key : string) (choice : nat)
    (ep : endpoint) (inp : form_inputs) :
  credentials_accepted sec u p = true ->
  configured_api_key sec = Some key ->
  selected_endpoint choice = Some ep ->
  fst (validate ep (build_form ep inp)) = true ->
  logged_in
    (fst (run_session rt sec server initial_session
            [ActLogin u p; ActFetch choice inp])) = true
  /\ sent_requests
       (snd (run_session rt sec server initial_session
               [ActLogin u p; ActFetch choice inp]))
     = [mkRequest (full_url (build_form ep inp)) key
                  (params (build_form ep inp))].
Proof.
  intros Hacc Hkey Hsel Hval.
  cbn [run_session].
  destruct (script_run_logged_out rt sec server initial_session (ActLogin u p)
              eq_refl) as [Hreq [_ Hflag]].
  destruct (script_run rt sec server initial_session (ActLogin u p))
    as [st' trace]. cbn [fst snd] in *. rewrite Hacc in Hflag.
  unfold script_run. rewrite Hflag. cbn [fst snd].
  rewrite app_nil_r, sent_requests_app, Hreq. cbn [app].
  split; [exact Hflag |].
  unfold main_app. rewrite Hsel. cbn [sent_requests flat_map app].
  fold (sent_requests (render_and_fetch rt sec ep inp server)).
  unfold render_and_fetch. now rewrite fetch_click_requests, Hval, Hkey.
Qed.

Lemma accepted_login_opens_fetch_witness :
  sent_requests
    (snd (run_session sample_runtime sample_secrets sample_server
            initial_session [ActLogin "alice" "pb"; ActFetch 0 sample_inputs]))
  = [mkRequest "https://v3.edgezeroapi.com/pienergy/devices" "k3y"
               [("device_serialid", PStr "E1")]].
Proof.
  exact (proj2
    (accepted_login_opens_fetch sample_runtime sample_secrets sample_server
       "alice" "pb" "k3y" 0 ep_devices sample_inputs
       eq_refl eq_refl eq_refl eq_refl)).
Defined.

(** X1. Without a usable [credentials] section (the section, or one of
    its two lists, is absent) every submission leaves the session as it was
    and shows a configuration message, never "Incorrect username or
    password"; a logged-out session then stays logged out and sends
    nothing, whatever the user does. *)
Theorem broken_configuration_locks_everyone_out (rt : runtime)
    (sec : secrets) (server : request -> http_result) (st : session_state)
    (acts : list user_action) :
  (sec_credentials sec = None
   \/ exists c, sec_credentials sec = Some c
                /\ (usernames c = None \/ passwords c = None)) ->
  logged_in st = false ->
  (forall u p,
     fst (login_submit sec st u p) = st
     /\ exists msg,
          snd (login_submit sec st u p) = [EvError msg]
          /\ msg <> "Incorrect username or password")
  /\ logged_in (fst (run_session rt sec server st acts)) = false
  /\ sent_requests (snd (run_session rt sec server st acts)) = [].
Proof.
  intros Hcfg Hst.
  assert (Hrej : forall u p, credentials_accepted sec u p = false).
  { intros u p. unfold credentials_accepted.
    destruct Hcfg as [H | [c [Hc [H | H]]]].
    - now rewrite H.
    - now rewrite Hc, H.
    - rewrite Hc, H. now destruct (usernames c). }
  split.
  - intros u p. unfold login_submit.
    destruct Hcfg as [H | [c [Hc [H | H]]]].
    + rewrite H. split; [reflexivity |]. eexists. split; [reflexivity |].
      discriminate.
    + rewrite Hc, H. split; [reflexivity |]. eexists.
      split; [reflexivity |]. discriminate.
    + rewrite Hc, H. destruct (usernames c); (split; [reflexivity |]);
        eexists; (split; [reflexivity |]); discriminate.
  - destruct (run_session_logged_out rt sec server st acts Hst)
      as [F [R _]]; [| now split].
    intros u p _. apply Hrej.
Qed.

Lemma broken_configuration_locks_everyone_out_witness :
  sent_requests
    (snd (run_session sample_runtime (mkSecrets None None) sample_server
            initial_session [ActLogin "alice" "pa"; ActFetch 0 sample_inputs]))
  = [].
Proof.
  exact (proj2 (proj2
    (broken_configuration_locks_everyone_out sample_runtime
       (mkSecrets None None) sample_server initial_session
       [ActLogin "alice" "pa"; ActFetch 0 sample_inputs]
       (or_introl eq_refl) eq_refl))).
Defined.

(** ** The fetch button, branch by branch *)

Lemma validation_passes_iff (ep : endpoint) (fs : form_state) :
  fst (validate ep fs) = true
  <-> (device_serialid fs <> "" \/ ~ In "device_serialid" (ep_required_params ep)).
Proof.
  rewrite validate_outcome. cbn [fst]. unfold complaints.
  destruct (str_truthy (device_serialid fs)) eqn:E.
  - apply str_truthy_nonempty in E. tauto.
  - apply str_truthy_empty in E.
    destruct (count_occ string_dec (ep_required_params ep) "device_serialid")
      eqn:C.
    + apply count_occ_not_In in C. tauto.
    + split; [discriminate |]. intros [H | H]; [congruence |].
      apply (count_occ_not_In string_dec) in H. congruence.
Qed.

(** X5. The validation passes exactly when the device id is not empty or
    is not among the endpoint's required names; nothing else of the form's
    state has a say in it. *)
Theorem validation_looks_at_device_id_only (ep : endpoint) (fs : form_state) :
  (fst (validate ep fs) = true
   <-> (device_serialid fs <> ""
        \/ ~ In "device_serialid" (ep_required_params ep)))
  /\ (forall fs',
        device_serialid fs' = device_serialid fs ->
        validate ep fs' = validate ep fs).
Proof.
  split; [apply validation_passes_iff |].
  intros fs' H. unfold validate. now rewrite H.
Qed.

(** X6. The device id field is labelled "(Optional)" exactly when an empty
    device id passes the validation, and labelled plainly exactly when an
    empty device id fails it. *)
Theorem device_label_optional_iff_empty_passes (ep : endpoint)
    (label : string) :
  device_label ep = Some label ->
  (label = "Device Serial ID (Optional)"
   <-> forall fs, device_serialid fs = "" -> fst (validate ep fs) = true)
  /\ (label = "Device Serial ID"
      <-> forall fs, device_serialid fs = "" -> fst (validate ep fs) = false).
Proof.
  unfold device_label.
  destruct (str_in_list "device_serialid" (ep_params ep)); [| discriminate].
  destruct (str_in_list "device_serialid" (ep_required_params ep)) eqn:E;
    cbn [negb]; intros H; injection H as <-.
  - apply str_in_list_In in E. split; split.
    + discriminate.
    + intros Hall. specialize (Hall initial_form eq_refl).
      apply validation_passes_iff in Hall. destruct Hall as [Hall | Hall].
      * now elim Hall.
      * now elim Hall.
    + intros _ fs Hfs.
      destruct (fst (validate ep fs)) eqn:V; [| reflexivity].
      apply validation_passes_iff in V. destruct V as [V | V]; tauto.
    + reflexivity.
  - apply str_in_list_not_In in E. split; split.
    + intros _ fs _. apply validation_passes_iff. now right.
    + reflexivity.
    + discriminate.
    + intros Hall. specialize (Hall initial_form eq_refl).
      assert (fst (validate ep initial_form) = true)
        by (apply validation_passes_iff; now right).
      congruence.
Qed.

Lemma device_label_optional_iff_empty_passes_witness :
  fst (validate ep_devices initial_form) = true.
Proof.
  exact (proj1 (proj1
    (device_label_optional_iff_empty_passes ep_devices
       "Device Serial ID (Optional)" eq_refl)) eq_refl initial_form eq_refl).
Defined.

Lemma complaints_logged (n : nat) :
  logged_messages
    (List.concat (repeat [EvLog MSG_DEVICE_REQUIRED; EvError MSG_DEVICE_REQUIRED] n))
  = repeat MSG_DEVICE_REQUIRED n
  /\ offered_downloads
       (List.concat (repeat [EvLog MSG_DEVICE_REQUIRED; EvError MSG_DEVICE_REQUIRED] n))
     = []
  /\ shown_successes
       (List.concat (repeat [EvLog MSG_DEVICE_REQUIRED; EvError MSG_DEVICE_REQUIRED] n))
     = [].
Proof.
  induction n as [| n [IH1 [IH2 IH3]]]; simpl; [now repeat split |].
  rewrite IH1. now repeat split.
Qed.

(** The three ways a click ends once a request has gone out. *)
Lemma answer_trace_logged (rt : runtime) (ep : endpoint) (answer : http_result) :
  let t :=
    match answer with
    | HttpOk data => handle_payload rt ep data
    | HttpStatusError exc body_text body_json =>
        report_http_error rt exc body_text body_json
    | HttpFailure exc => report_unexpected exc
    end in
  logged_messages t = shown_errors t
  /\ (List.length (offered_downloads t) <= 1)%nat
  /\ (offered_downloads t <> [] ->
      shown_errors t = []
      /\ shown_successes t = ["Data fetched successfully!"]).
Proof.
  destruct answer as [data | exc text body | exc]; cbv zeta.
  - unfold handle_payload, report_unexpected.
    destruct (json_has_key "error-code" data);
      [| destruct (negb (json_truthy data));
         [| destruct (json_normalize rt data) as [df | exc];
            [destruct (first_conversion_error rt (Dict.keys df) df) |]]];
      cbn; repeat split; try lia; try congruence; auto.
  - unfold report_http_error.
    destruct body as [[| | | | | fields] |]; cbn; repeat split; try lia;
      congruence.
  - unfold report_unexpected. cbn. repeat split; try lia; congruence.
Qed.

(** X7. Whatever a click on the fetch button leads to, the messages it
    logs are the messages it shows as errors, in the same order. *)
Theorem fetch_errors_are_logged (rt : runtime) (sec : secrets) (ep : endpoint)
    (fs : form_state) (server : request -> http_result) :
  logged_messages (fetch_click rt sec ep fs server)
  = shown_errors (fetch_click rt sec ep fs server).
Proof.
  destruct (fst (validate ep fs)) eqn:V.
  - rewrite (fetch_click_passed rt sec ep fs server V).
    destruct (configured_api_key sec) as [key |]; [| reflexivity].
    cbn [logged_messages shown_errors flat_map app].
    apply (answer_trace_logged rt ep
             (server (mkRequest (full_url fs) key (params fs)))).
  - rewrite (fetch_click_blocked rt sec ep fs server V), validate_outcome.
    cbn [snd].
    rewrite (proj1 (complaints_logged _)), (proj1 (complaints_trace _)).
    reflexivity.
Qed.

(** X8. A click offers at most one download, and when it offers one, it
    has shown no error, it has shown the success message and it has sent
    one request. *)
Theorem download_only_on_clean_success (rt : runtime) (sec : secrets)
    (ep : endpoint) (fs : form_state) (server : request -> http_result) :
  (List.length (offered_downloads (fetch_click rt sec ep fs server)) <= 1)%nat
  /\ (offered_downloads (fetch_click rt sec ep fs server) <> [] ->
      shown_errors (fetch_click rt sec ep fs server) = []
      /\ shown_successes (fetch_click rt sec ep fs server)
         = ["Data fetched successfully!"]
      /\ List.length (sent_requests (fetch_click rt sec ep fs server)) = 1%nat).
Proof.
  destruct (fst (validate ep fs)) eqn:V.
  - rewrite fetch_click_requests, V.
    rewrite (fetch_click_passed rt sec ep fs server V).
    destruct (configured_api_key sec) as [key |].
    + cbn [offered_downloads shown_errors shown_successes flat_map app].
      destruct (answer_trace_logged rt ep
                  (server (mkRequest (full_url fs) key (params fs))))
        as [_ [Hlen Hclean]].
      split; [exact Hlen |]. intros Hne.
      destruct (Hclean Hne) as [He Hs]. now repeat split.
    + cbn. split; [lia | congruence].
  - rewrite (fetch_click_blocked rt sec ep fs server V), validate_outcome.
    cbn [snd]. rewrite (proj1 (proj2 (complaints_logged _))).
    cbn. split; [lia | congruence].
Qed.

(** X9. A click sends at most one request; the one it sends has the
    form's URL and parameters and the configured API key, and goes out only
    when the validation has shown no error. *)
Theorem one_request_per_click (rt : runtime) (sec : secrets) (ep : endpoint)
    (fs : form_state) (server : request -> http_result) (r : request) :
  In r (sent_requests (fetch_click rt sec ep fs server)) ->
  sent_requests (fetch_click rt sec ep fs server) = [r]
  /\ req_url r = full_url fs
  /\ req_params r = params fs
  /\ configured_api_key sec = Some (req_api_key r)
  /\ shown_errors (snd (validate ep fs)) = [].
Proof.
  rewrite fetch_click_requests. rewrite validate_outcome. cbn [fst snd].
  destruct (complaints (device_serialid fs) (ep_required_params ep));
    [| contradiction].
  destruct (configured_api_key sec) as [key |]; [| contradiction].
  intros [<- | []]. now repeat split.
Qed.

Lemma one_request_per_click_witness :
  req_url (mkRequest "https://v3.edgezeroapi.com/pienergy/devices" "k3y"
                     [("device_serialid", PStr "E1")])
  = full_url (build_form ep_devices sample_inputs)
  /\ configured_api_key sample_secrets = Some "k3y".
Proof.
  destruct (one_request_per_click sample_runtime sample_secrets ep_devices
              (build_form ep_devices sample_inputs) sample_server
              (mkRequest "https://v3.edgezeroapi.com/pienergy/devices" "k3y"
                         [("device_serialid", PStr "E1")])
              ltac:(vm_compute; left; reflexivity))
    as [_ [Hurl [_ [Hkey _]]]].
  split; [exact Hurl | exact Hkey].
Defined.

(** X10. Without a configured API key nothing is sent and nothing offered:
    a form that passes the validation ends in the key error, logged, shown
    and followed by [st.stop()]; a form that fails it shows the validation
    errors only. *)
Theorem missing_api_key_blocks_request (rt : runtime) (sec : secrets)
    (ep : endpoint) (fs : form_state) (server : request -> http_result) :
  configured_api_key sec = None ->
  sent_requests (fetch_click rt sec ep fs server) = []
  /\ offered_downloads (fetch_click rt sec ep fs server) = []
  /\ (fst (validate ep fs) = true ->
      fetch_click rt sec ep fs server
      = [EvLog MSG_NO_API_KEY; EvError MSG_NO_API_KEY; EvStop])
  /\ (fst (validate ep fs) = false ->
      ~ In MSG_NO_API_KEY (shown_errors (fetch_click rt sec ep fs server))).
Proof.
  intros Hkey. rewrite fetch_click_requests, Hkey.
  split; [now destruct (fst (validate ep fs)) |].
  destruct (fst (validate ep fs)) eqn:V.
  - rewrite (fetch_click_passed rt sec ep fs server V), Hkey.
    split; [reflexivity |]. split; [reflexivity | discriminate].
  - rewrite (fetch_click_blocked rt sec ep fs server V), validate_outcome.
    cbn [snd]. rewrite (proj1 (proj2 (complaints_logged _))).
    split; [reflexivity |]. split; [discriminate |]. intros _.
    rewrite (proj1 (complaints_trace _)). intros Hin.
    apply repeat_spec in Hin. discriminate Hin.
Qed.

Lemma missing_api_key_blocks_request_witness :
  fetch_click sample_runtime (mkSecrets (Some sample_credentials) None)
    ep_devices (build_form ep_devices sample_inputs) sample_server
  = [EvLog MSG_NO_API_KEY; EvError MSG_NO_API_KEY; EvStop].
Proof.
  exact (proj1 (proj2 (proj2
    (missing_api_key_blocks_request sample_runtime
       (mkSecrets (Some sample_credentials) None) ep_devices
       (build_form ep_devices sample_inputs) sample_server eq_refl)))
    eq_refl).
Defined.

(** X11. An answer with an error status never leads to a success message
    or a download.  The first error shown is "HTTP Error: <exception>"; the
    second is "API Response: " with the body's [message] when the body is a
    JSON object that has one, with the body's text when the object has
    none or the body is not JSON; a JSON body that is not an object adds
    nothing. *)
Theorem http_error_report (rt : runtime) (sec : secrets) (ep : endpoint)
    (fs : form_state) (server : request -> http_result) (key : string)
    (exc body_text : string) (body_json : option json) :
  fst (validate ep fs) = true ->
  configured_api_key sec = Some key ->
  server (mkRequest (full_url fs) key (params fs))
  = HttpStatusError exc body_text body_json ->
  offered_downloads (fetch_click rt sec ep fs server) = []
  /\ shown_successes (fetch_click rt sec ep fs server) = []
  /\ hd_error (shown_errors (fetch_click rt sec ep fs server))
     = Some ("HTTP Error: " ++ exc)%string
  /\ (body_json = None ->
      shown_errors (fetch_click rt sec ep fs server)
      = [("HTTP Error: " ++ exc)%string;
         ("API Response: " ++ body_text)%string])
  /\ (forall fields m,
        body_json = Some (JObj fields) ->
        Dict.get "message" fields = Some (JStr m) ->
        shown_errors (fetch_click rt sec ep fs server)
        = [("HTTP Error: " ++ exc)%string; ("API Response: " ++ m)%string])
  /\ (forall fields,
        body_json = Some (JObj fields) ->
        Dict.get "message" fields = None ->
        shown_errors (fetch_click rt sec ep fs server)
        = [("HTTP Error: " ++ exc)%string;
           ("API Response: " ++ body_text)%string])
  /\ (forall data,
        body_json = Some data ->
        (forall fields, data <> JObj fields) ->
        shown_errors (fetch_click rt sec ep fs server)
        = [("HTTP Error: " ++ exc)%string]).
Proof.
  intros V Hkey Hs.
  rewrite (fetch_click_passed rt sec ep fs server V), Hkey, Hs.
  unfold report_http_error.
  cbn [offered_downloads shown_successes shown_errors flat_map app hd_error].
  split; [| split; [| split; [reflexivity | split; [| split; [| split]]]]].
  - destruct body_json as [[| | | | | fields] |]; reflexivity.
  - destruct body_json as [[| | | | | fields] |]; reflexivity.
  - intros ->. reflexivity.
  - intros fields m -> Hm. rewrite Hm. reflexivity.
  - intros fields -> Hm. rewrite Hm. reflexivity.
  - intros data -> Hnot.
    destruct data as [| | | | | fields]; try reflexivity.
    now elim (Hnot fields).
Qed.

Lemma http_error_report_witness :
  shown_errors
    (fetch_click sample_runtime sample_secrets ep_devices
       (build_form ep_devices sample_inputs) sample_server)
  = ["HTTP Error: 401 Client Error: Unauthorized"; "API Response: bad key"].
Proof.
  exact (proj1 (proj2 (proj2 (proj2 (proj2
    (http_error_report sample_runtime sample_secrets ep_devices
       (build_form ep_devices sample_inputs) sample_server "k3y"
       "401 Client Error: Unauthorized" _ _ eq_refl eq_refl eq_refl)))))
    [("message", JStr "bad key")] "bad key" eq_refl eq_refl).
Defined.

(** X12. When the payload is data but [json_normalize] raises, the success
    message has already been shown; the exception is then logged and shown
    as an unexpected error and no download is offered. *)
Theorem formatting_failure_after_success (rt : runtime) (sec : secrets)
    (ep : endpoint) (fs : form_state) (server : request -> http_result)
    (key : string) (data : json) (exc : string) :
  fst (validate ep fs) = true ->
  configured_api_key sec = Some key ->
  server (mkRequest (full_url fs) key (params fs)) = HttpOk data ->
  json_has_key "error-code" data = false ->
  json_truthy data = true ->
  json_normalize rt data = inr exc ->
  fetch_click rt sec ep fs server
  = [ EvRequest (mkRequest (full_url fs) key (params fs))
    ; EvSuccess "Data fetched successfully!"
    ; EvLog ("An unexpected error occurred: " ++ exc)%string
    ; EvError ("An unexpected error occurred: " ++ exc)%string ].
Proof.
  intros V Hkey Hs H1 H2 H3.
  rewrite (fetch_click_passed rt sec ep fs server V), Hkey, Hs.
  unfold handle_payload. now rewrite H1, H2, H3.
Qed.

Lemma formatting_failure_after_success_witness :
  fetch_click sample_runtime sample_secrets ep_devices
    (build_form ep_devices sample_inputs) (fun _ => HttpOk (JInt 5))
  = [ EvRequest (mkRequest "https://v3.edgezeroapi.com/pienergy/devices"
                           "k3y" [("device_serialid", PStr "E1")])
    ; EvSuccess "Data fetched successfully!"
    ; EvLog "An unexpected error occurred: NotImplementedError"
    ; EvError "An unexpected error occurred: NotImplementedError" ].
Proof.
  exact (formatting_failure_after_success sample_runtime sample_secrets
           ep_devices (build_form ep_devices sample_inputs)
           (fun _ => HttpOk (JInt 5)) "k3y" (JInt 5) "NotImplementedError"
           eq_refl eq_refl eq_refl eq_refl eq_refl eq_refl).
Defined.

(** ** The parameter map and the granularity box *)

(** X13. For any endpoint descriptor, the keys of the parameter map are,
    in this order: [device_serialid] for the "Devices" endpoint with a
    non-empty device id; [starttime] and [endtime] together when dates are
    accepted; [granularity] when it is accepted along with dates. *)
Theorem params_keys_shape (ep : endpoint) (inp : form_inputs) :
  Dict.keys (params (build_form ep inp))
  = (if str_in_list "device_serialid" (ep_params ep)
        && str_in_list (ep_name ep) ["Devices"]
        && str_truthy (in_device inp)
     then ["device_serialid"] else [])
    ++ (if str_in_list "dates" (ep_params ep)
        then ["starttime"; "endtime"] else [])
    ++ (if str_in_list "granularity" (ep_params ep)
           && str_in_list "dates" (ep_params ep)
        then ["granularity"] else []).
Proof.
  unfold build_form, granularity_block, dates_block, device_block,
    offered_granularities.
  destruct (str_in_list "device_serialid" (ep_params ep));
    destruct (str_in_list (ep_name ep) ["Devices"]);
    destruct (str_truthy (in_device inp));
    destruct (str_in_list "dates" (ep_params ep));
    destruct (str_in_list "granularity" (ep_params ep));
    reflexivity.
Qed.

(** X14. Widening the span never adds an option: the options of a longer
    span are among those of a shorter one, and "1h" and "daily" are always
    on offer. *)
Theorem granularity_options_narrow_with_span (a b : Z) :
  a <= b ->
  incl (granularity_options b) (granularity_options a)
  /\ In "1h" (granularity_options b)
  /\ In "daily" (granularity_options b).
Proof.
  intros Hab. unfold granularity_options.
  destruct (Z.ltb_spec a 1), (Z.ltb_spec b 1); try lia;
    destruct (Z.leb_spec 1 a), (Z.leb_spec a 7), (Z.leb_spec 1 b),
      (Z.leb_spec b 7); try lia; cbn [andb];
    (split; [intros x Hx; simpl in *; tauto | simpl; tauto]).
Qed.

Lemma granularity_options_narrow_with_span_witness :
  incl (granularity_options 30) (granularity_options 3).
Proof.
  exact (proj1 (granularity_options_narrow_with_span 3 30 ltac:(lia))).
Defined.

(** X15. With the same date in both pickers (as when both still show
    their default) and the granularity box untouched, the request's
    granularity is "1m". *)
Theorem same_day_defaults_to_one_minute (ep : endpoint) (inp : form_inputs) :
  In "dates" (ep_params ep) ->
  In "granularity" (ep_params ep) ->
  in_end inp = in_start inp ->
  in_granularity inp = 0%nat ->
  Dict.get "granularity" (params (build_form ep inp)) = Some (PStr "1m").
Proof.
  intros Hd Hg Hsame H0.
  rewrite (form_granularity_param ep inp Hd Hg), Hsame, H0.
  unfold date_diff_days. rewrite Z.sub_diag. reflexivity.
Qed.

Lemma same_day_defaults_to_one_minute_witness :
  Dict.get "granularity"
    (params (build_form ep_power_quality_interval
               (mkInputs "" (mkDate 2031 7 4) (mkDate 2031 7 4) 0)))
  = Some (PStr "1m").
Proof.
  exact (same_day_defaults_to_one_minute ep_power_quality_interval
           (mkInputs "" (mkDate 2031 7 4) (mkDate 2031 7 4) 0)
           ltac:(simpl; tauto) ltac:(simpl; tauto) eq_refl eq_refl).
Defined.

Lemma date_ltb_irrefl (a : date) : date_ltb a a = false.
Proof.
  unfold date_ltb. rewrite !Z.ltb_irrefl, !Z.eqb_refl. reflexivity.
Qed.

(** X16. For two dates, the five options are on offer exactly when the end
    date is not after the start date, and the span is zero exactly when the
    two dates are the same. *)
Theorem finest_options_iff_end_not_after_start (s e : date) :
  valid_date s = true ->
  valid_date e = true ->
  (date_ltb s e = false
   <-> granularity_options (date_diff_days e s)
       = ["1m"; "5m"; "15m"; "1h"; "daily"])
  /\ (date_diff_days e s = 0 <-> e = s).
Proof.
  intros Hs He.
  assert (Hcases : (date_ltb s e = true /\ 0 < date_diff_days e s)
                   \/ (s = e /\ date_diff_days e s = 0)
                   \/ (date_ltb e s = true /\ date_diff_days e s < 0)).
  { unfold date_diff_days. destruct (date_ltb s e) eqn:E.
    - left. split; [reflexivity |].
      pose proof (toordinal_lt s e Hs He E). lia.
    - right. destruct (date_ltb_total s e E) as [-> | Hlt].
      + left. split; [reflexivity | lia].
      + right. split; [exact Hlt |].
        pose proof (toordinal_lt e s He Hs Hlt). lia. }
  unfold granularity_options.
  destruct Hcases as [[Hlt Hd] | [[-> Hd] | [Hlt Hd]]].
  - rewrite Hlt. destruct (Z.ltb_spec (date_diff_days e s) 1); [lia |].
    split; split; try discriminate; try lia.
    + destruct ((1 <=? date_diff_days e s) && (date_diff_days e s <=? 7));
        discriminate.
    + intros ->. rewrite date_ltb_irrefl in Hlt. discriminate.
  - rewrite date_ltb_irrefl, Hd. cbn. split; split; auto.
  - assert (Hse : date_ltb s e = false).
    { destruct (date_ltb s e) eqn:E; [| reflexivity].
      pose proof (toordinal_lt s e Hs He E). unfold date_diff_days in Hd. lia. }
    rewrite Hse. destruct (Z.ltb_spec (date_diff_days e s) 1); [| lia].
    split; split; auto; try lia.
    intros ->. rewrite date_ltb_irrefl in Hlt. discriminate.
Qed.

Lemma finest_options_iff_end_not_after_start_witness :
  granularity_options (date_diff_days (mkDate 2023 12 31) new_year_2024)
  = ["1m"; "5m"; "15m"; "1h"; "daily"].
Proof.
  exact (proj1 (proj1
    (finest_options_iff_end_not_after_start new_year_2024 (mkDate 2023 12 31)
       eq_refl eq_refl)) eq_refl).
Defined.

(** X17. Between 1970-01-01 and 2514-05-29, [endtime - starttime] is the
    span in days times 86400 plus 86399: the window covers the whole days
    from the start date to the end date, and [starttime] is below [endtime]
    whenever the end date is not before the start date. *)
Theorem request_window_covers_whole_days (s e : date) :
  valid_date s = true -> valid_date e = true ->
  in_exact_range s = true -> in_exact_range e = true ->
  end_epoch e - start_epoch s = date_diff_days e s * 86400 + 86399
  /\ (date_ltb e s = false -> start_epoch s < end_epoch e).
Proof.
  intros Hs He Rs Re.
  rewrite (start_epoch_exact _ (exact_range_days _ Hs Rs)).
  rewrite (end_epoch_exact _ (exact_range_days _ He Re)).
  unfold date_diff_days. split; [ring |].
  intros Hle. destruct (date_ltb_total e s Hle) as [-> | Hlt]; [lia |].
  pose proof (toordinal_lt s e Hs He Hlt). lia.
Qed.

Lemma request_window_covers_whole_days_witness :
  end_epoch (mkDate 2024 1 8) - start_epoch new_year_2024
  = date_diff_days (mkDate 2024 1 8) new_year_2024 * 86400 + 86399.
Proof.
  exact (proj1
    (request_window_covers_whole_days new_year_2024 (mkDate 2024 1 8)
       eq_refl eq_refl eq_refl eq_refl)).
Defined.

(** ** Epoch seconds over every date Python can hold *)

Lemma floor_log2_ratio_lower (a d B : Z) :
  0 < a -> 0 < d -> 0 <= B -> d * 2 ^ B <= a -> B <= floor_log2_ratio a d.
Proof.
  intros Ha Hd HB Hle. unfold floor_log2_ratio.
  pose proof (Z.log2_spec a Ha) as [_ Hla].
  pose proof (Z.log2_spec d Hd) as [Hld _].
  pose proof (Z.log2_nonneg a). pose proof (Z.log2_nonneg d).
  assert (He0 : B <= Z.log2 a - Z.log2 d).
  { assert (2 ^ (Z.log2 d + B) < 2 ^ Z.succ (Z.log2 a)).
    { rewrite Z.pow_add_r by lia. nia. }
    apply Z.pow_lt_mono_r_iff in H1; lia. }
  destruct (Z.leb_spec 0 (Z.log2 a - Z.log2 d)); [| lia].
  destruct (Z.leb_spec (d * 2 ^ (Z.log2 a - Z.log2 d)) a); [lia |].
  assert (B <> Z.log2 a - Z.log2 d) by (intros ->; lia). lia.
Qed.

Lemma valid_date_epoch_days (d : date) :
  valid_date d = true -> - 719162 <= epoch_days d <= 2932896.
Proof.
  intros Hv. apply valid_date_spec in Hv. destruct Hv as [Hy [Hm Hd]].
  unfold epoch_days, toordinal, ymd2ord, EPOCH_ORDINAL.
  pose proof (day_of_year_bounds _ _ _ Hm Hd) as Hdoy.
  pose proof (days_before_year_succ (year d)) as Hsucc.
  pose proof (days_before_year_mono 1 (year d) ltac:(lia)) as Hlo.
  pose proof (days_before_year_mono (year d + 1) 10000 ltac:(lia)) as Hhi.
  change (days_before_year 1) with 0 in Hlo.
  change (days_before_year 10000) with 3652059 in Hhi.
  lia.
Qed.

Lemma int_of_float_whole_any (s : Z) :
  - 2 ^ 52 < s < 2 ^ 52 ->
  int_of_float (float_of_ratio (s * 10 ^ 6) (10 ^ 6)) = s.
Proof.
  intros Hs. unfold float_of_ratio.
  destruct (Z.eqb_spec (s * 10 ^ 6) 0) as [H0 | H0].
  - unfold int_of_float. simpl. lia.
  - replace (Z.abs (s * 10 ^ 6)) with (Z.abs s * 10 ^ 6)
      by (rewrite Z.abs_mul; reflexivity).
    assert (Hpos : 0 < Z.abs s) by lia.
    pose proof (floor_log2_ratio_upper (Z.abs s * 10 ^ 6) (10 ^ 6) 52
                  ltac:(lia) ltac:(lia) ltac:(lia) ltac:(lia)) as Hf.
    set (e := floor_log2_ratio (Z.abs s * 10 ^ 6) (10 ^ 6) - 52) in *.
    destruct (Z.leb_spec 0 e); [lia |].
    unfold int_of_float. cbn [fl_neg fl_mant fl_exp].
    destruct (Z.leb_spec 0 e); [lia |].
    replace (Z.abs s * 10 ^ 6 * 2 ^ (- e)) with (Z.abs s * 2 ^ (- e) * 10 ^ 6)
      by ring.
    rewrite round_half_even_exact by lia.
    rewrite Z.div_mul by (pose proof (Z.pow_pos_nonneg 2 (- e)); lia).
    destruct (Z.ltb_spec (s * 10 ^ 6) 0); lia.
Qed.

(** X18. For every date a [datetime.date] can hold, [starttime] is exactly
    86400 times the days since 1970-01-01: start-of-day never suffers from
    the float. *)
Theorem start_epoch_every_date (d : date) :
  valid_date d = true -> start_epoch d = epoch_days d * 86400.
Proof.
  intros Hv. pose proof (valid_date_epoch_days d Hv) as Hd.
  unfold start_epoch, timestamp, total_microseconds.
  cbn [time_min second minute hour microsecond]. fold (epoch_days d).
  replace ((epoch_days d * 86400 + (0 + 0 * 60 + 0 * 3600)) * 10 ^ 6 + 0)
    with (epoch_days d * 86400 * 10 ^ 6) by ring.
  apply int_of_float_whole_any. change (2 ^ 52) with 4503599627370496. lia.
Qed.

Lemma start_epoch_every_date_witness :
  start_epoch (mkDate 1900 2 28) = epoch_days (mkDate 1900 2 28) * 86400.
Proof. exact (start_epoch_every_date (mkDate 1900 2 28) eq_refl). Defined.

(** The last microsecond of a day before the epoch is [t] seconds and one
    microsecond below zero: the nearest double lies within a second of
    [- t], and truncation gives [- t], the next midnight. *)
Lemma int_of_float_just_below (t : Z) :
  0 <= t < 2 ^ 51 ->
  int_of_float (float_of_ratio (- (t * 10 ^ 6 + 1)) (10 ^ 6)) = - t.
Proof.
  intros Ht. unfold float_of_ratio.
  destruct (Z.eqb_spec (- (t * 10 ^ 6 + 1)) 0) as [H0 | H0]; [lia |].
  replace (Z.abs (- (t * 10 ^ 6 + 1))) with (t * 10 ^ 6 + 1) by lia.
  pose proof (floor_log2_ratio_upper (t * 10 ^ 6 + 1) (10 ^ 6) 52
                ltac:(lia) ltac:(lia) ltac:(lia) ltac:(lia)) as Hf.
  set (e := floor_log2_ratio (t * 10 ^ 6 + 1) (10 ^ 6) - 52) in *.
  destruct (Z.leb_spec 0 e); [lia |].
  unfold int_of_float. cbn [fl_neg fl_mant fl_exp].
  destruct (Z.leb_spec 0 e); [lia |].
  destruct (Z.ltb_spec (- (t * 10 ^ 6 + 1)) 0); [| lia].
  assert (HP : 2 ^ 1 <= 2 ^ (- e)) by (apply Z.pow_le_mono_r; lia).
  set (P := 2 ^ (- e)) in *.
  pose proof (round_half_even_bounds ((t * 10 ^ 6 + 1) * P) (10 ^ 6)
                ltac:(lia)) as [Hlo Hhi].
  set (m := round_half_even ((t * 10 ^ 6 + 1) * P) (10 ^ 6)) in *.
  change (10 ^ 6) with 1000000 in *. change (2 ^ 1) with 2 in HP.
  f_equal. symmetry. apply (Z.div_unique m P t (m - t * P)); [| lia].
  left. nia.
Qed.

(** X19. For every date before 1970-01-01, [endtime] is the epoch second
    of the next midnight, not of 23:59:59: [int] truncates the negative
    timestamp towards zero. *)
Theorem end_epoch_before_the_epoch (d : date) :
  valid_date d = true ->
  epoch_days d < 0 ->
  end_epoch d = (epoch_days d + 1) * 86400.
Proof.
  intros Hv Hneg. pose proof (valid_date_epoch_days d Hv) as Hd.
  unfold end_epoch, timestamp, total_microseconds.
  cbn [time_max second minute hour microsecond]. fold (epoch_days d).
  replace ((epoch_days d * 86400 + (59 + 59 * 60 + 23 * 3600)) * 10 ^ 6 + 999999)
    with (- ((- (epoch_days d + 1) * 86400) * 10 ^ 6 + 1)) by ring.
  rewrite int_of_float_just_below; [ring |].
  change (2 ^ 51) with 2251799813685248. lia.
Qed.

Lemma end_epoch_before_the_epoch_witness :
  end_epoch (mkDate 1969 12 31) = (epoch_days (mkDate 1969 12 31) + 1) * 86400.
Proof.
  exact (end_epoch_before_the_epoch (mkDate 1969 12 31) eq_refl eq_refl).
Defined.

(** From [2 ^ 34] seconds on, doubles are at least [2 ^ -18] apart and the
    one nearest to the last microsecond of a second is the next second. *)
Lemma int_of_float_last_microsecond_late (s : Z) :
  2 ^ 34 <= s < 2 ^ 51 ->
  int_of_float (float_of_ratio (s * 10 ^ 6 + 999999) (10 ^ 6)) = s + 1.
Proof.
  intros Hs. unfold float_of_ratio.
  change (2 ^ 34) with 17179869184 in Hs.
  change (2 ^ 51) with 2251799813685248 in Hs.
  destruct (Z.eqb_spec (s * 10 ^ 6 + 999999) 0) as [H0 | H0]; [lia |].
  rewrite Z.abs_eq by lia.
  pose proof (floor_log2_ratio_upper (s * 10 ^ 6 + 999999) (10 ^ 6) 52
                ltac:(lia) ltac:(lia) ltac:(lia)
                ltac:(change (2 ^ 52) with 4503599627370496; lia)) as Hup.
  pose proof (floor_log2_ratio_lower (s * 10 ^ 6 + 999999) (10 ^ 6) 34
                ltac:(lia) ltac:(lia) ltac:(lia)
                ltac:(change (2 ^ 34) with 17179869184; lia)) as Hlow.
  set (e := floor_log2_ratio (s * 10 ^ 6 + 999999) (10 ^ 6) - 52) in *.
  destruct (Z.leb_spec 0 e); [lia |].
  unfold int_of_float. cbn [fl_neg fl_mant fl_exp].
  destruct (Z.leb_spec 0 e); [lia |].
  destruct (Z.ltb_spec (s * 10 ^ 6 + 999999) 0); [lia |].
  assert (HP1 : 2 ^ 1 <= 2 ^ (- e)) by (apply Z.pow_le_mono_r; lia).
  assert (HP2 : 2 ^ (- e) <= 2 ^ 18) by (apply Z.pow_le_mono_r; lia).
  set (P := 2 ^ (- e)) in *.
  pose proof (round_half_even_bounds ((s * 10 ^ 6 + 999999) * P) (10 ^ 6)
                ltac:(lia)) as [Hlo Hhi].
  set (m := round_half_even ((s * 10 ^ 6 + 999999) * P) (10 ^ 6)) in *.
  change (10 ^ 6) with 1000000 in *. change (2 ^ 1) with 2 in HP1.
  change (2 ^ 18) with 262144 in HP2.
  assert (Hm : m = (s + 1) * P) by nia.
  rewrite Hm. apply Z.div_mul. lia.
Qed.

(** X20. For every date after 2514-05-29, [endtime] is the epoch second of
    the next midnight: the double nearest to 23:59:59.999999 is the next
    whole second. *)
Theorem end_epoch_after_the_exact_range (d : date) :
  valid_date d = true ->
  198840 < epoch_days d ->
  end_epoch d = (epoch_days d + 1) * 86400.
Proof.
  intros Hv Hlate. pose proof (valid_date_epoch_days d Hv) as Hd.
  unfold end_epoch, timestamp, total_microseconds.
  cbn [time_max second minute hour microsecond]. fold (epoch_days d).
  replace ((epoch_days d * 86400 + (59 + 59 * 60 + 23 * 3600)) * 10 ^ 6 + 999999)
    with ((epoch_days d * 86400 + 86399) * 10 ^ 6 + 999999) by ring.
  rewrite int_of_float_last_microsecond_late; [ring |].
  change (2 ^ 34) with 17179869184. change (2 ^ 51) with 2251799813685248. lia.
Qed.

Lemma end_epoch_after_the_exact_range_witness :
  end_epoch (mkDate 9999 12 31) = (epoch_days (mkDate 9999 12 31) + 1) * 86400.
Proof.
  exact (end_epoch_after_the_exact_range (mkDate 9999 12 31) eq_refl eq_refl).
Defined.

(** ** The formatter's loop on any frame *)

Lemma keys_set {V : Type} (d : Dict.t V) (k : string) (v : V) :
  Dict.keys (Dict.set k v d)
  = Dict.keys d ++ (if Dict.mem k d then [] else [k]).
Proof.
  unfold Dict.mem. induction d as [| [k0 v0] d IH]; simpl.
  - reflexivity.
  - destruct (String.eqb k k0) eqn:E; simpl.
    + apply String.eqb_eq in E. subst k0. now rewrite app_nil_r.
    + now rewrite IH.
Qed.

Lemma readable_step_keys (df : frame) (name : string) :
  exists added,
    Dict.keys (readable_step df name) = Dict.keys df ++ added
    /\ (forall k, In k added -> k = readable_name name /\ time_like name = true).
Proof.
  unfold readable_step.
  destruct (time_like name) eqn:Ht;
    [| exists []; split; [now rewrite app_nil_r | contradiction]].
  destruct (Dict.get name df) as [c |];
    [| exists []; split; [now rewrite app_nil_r | contradiction]].
  destruct (is_numeric_dtype c);
    [| exists []; split; [now rewrite app_nil_r | contradiction]].
  rewrite keys_set.
  destruct (Dict.mem (readable_name name) df).
  - exists []. split; [reflexivity | contradiction].
  - exists [readable_name name]. split; [reflexivity |].
    intros k [<- | []]. now split.
Qed.

Lemma readable_fold_keys (names : list string) (df : frame) :
  exists added,
    Dict.keys (fold_left readable_step names df) = Dict.keys df ++ added
    /\ (forall k, In k added ->
        exists n, In n names /\ k = readable_name n /\ time_like n = true).
Proof.
  revert df. induction names as [| name names IH]; intros df; cbn [fold_left].
  - exists []. split; [now rewrite app_nil_r | contradiction].
  - destruct (readable_step_keys df name) as [a1 [H1 A1]].
    destruct (IH (readable_step df name)) as [a2 [H2 A2]].
    exists (a1 ++ a2). split.
    + now rewrite H2, H1, app_assoc.
    + intros k Hin. apply in_app_or in Hin. destruct Hin as [Hin | Hin].
      * destruct (A1 k Hin) as [-> Ht]. exists name. split; [now left | now split].
      * destruct (A2 k Hin) as [n [Hn Hk]]. exists n. split; [now right | exact Hk].
Qed.

(** X21. On any frame the formatter keeps every column name at its place;
    the names it appends are [_readable] names of time-like columns of the
    frame. *)
Theorem formatter_keeps_columns_in_place (df : frame) :
  exists added,
    Dict.keys (add_readable_columns df) = Dict.keys df ++ added
    /\ (forall k, In k added ->
        exists n, In n (Dict.keys df)
                  /\ k = readable_name n /\ time_like n = true).
Proof. apply readable_fold_keys. Qed.

Lemma readable_step_get_other (df : frame) (name k : string) :
  readable_name name <> k ->
  Dict.get k (readable_step df name) = Dict.get k df.
Proof.
  intros Hne. unfold readable_step.
  destruct (time_like name); [| reflexivity].
  destruct (Dict.get name df) as [c |]; [| reflexivity].
  destruct (is_numeric_dtype c); [| reflexivity].
  apply DictFacts.get_set_other. congruence.
Qed.

Lemma readable_fold_get_other (names : list string) (df : frame) (k : string) :
  (forall n, In n names -> readable_name n <> k) ->
  Dict.get k (fold_left readable_step names df) = Dict.get k df.
Proof.
  revert df. induction names as [| name names IH]; intros df Hall;
    cbn [fold_left]; [reflexivity |].
  rewrite IH by (intros n Hn; apply Hall; now right).
  apply readable_step_get_other. apply Hall. now left.
Qed.

(** X22. On any frame the formatter leaves alone every column whose name
    is not the [_readable] name of one of the frame's columns. *)
Theorem formatter_touches_only_derived_names (df : frame) (k : string) :
  (forall n, In n (Dict.keys df) -> readable_name n <> k) ->
  Dict.get k (add_readable_columns df) = Dict.get k df.
Proof. apply readable_fold_get_other. Qed.

Lemma formatter_touches_only_derived_names_witness :
  Dict.get "serial" (add_readable_columns sample_gap_frame)
  = Dict.get "serial" sample_gap_frame.
Proof.
  apply (formatter_touches_only_derived_names sample_gap_frame "serial").
  intros n Hin. simpl in Hin.
  destruct Hin as [<- | [<- | []]]; discriminate.
Defined.

Lemma NoDup_split_at (names : list string) (name : string) :
  NoDup names -> In name names ->
  exists l1 l2, names = l1 ++ name :: l2
                /\ ~ In name l1 /\ ~ In name l2.
Proof.
  intros Hnd Hin. apply in_split in Hin. destruct Hin as [l1 [l2 ->]].
  exists l1, l2. split; [reflexivity |].
  apply NoDup_remove_2 in Hnd. split; intros H; apply Hnd, in_or_app; auto.
Qed.

(** X23. A numeric time-like column gets its derived column even when the
    frame already has a column of that name, which is then overwritten;
    the column itself must not bear the [_readable] name of another
    column. *)
Theorem formatter_overwrites_existing_readable
    (df : frame) (name : string) (c : column) :
  unique_names (Dict.keys df) = true ->
  Dict.get name df = Some c ->
  time_like name = true ->
  is_numeric_dtype c = true ->
  (forall n, In n (Dict.keys df) -> readable_name n <> name) ->
  Dict.get (readable_name name) (add_readable_columns df)
  = Some (to_datetime c).
Proof.
  intros Hu Hget Ht Hnum Hsrc. apply unique_names_NoDup in Hu.
  assert (Hin : In name (Dict.keys df)).
  { destruct (in_dec string_dec name (Dict.keys df)) as [H | H]; [exact H |].
    apply DictFacts.get_None_not_key in H. congruence. }
  destruct (NoDup_split_at _ _ Hu Hin) as [l1 [l2 [Hkeys [H1 H2]]]].
  unfold add_readable_columns. rewrite Hkeys, fold_left_app. cbn [fold_left].
  rewrite readable_fold_get_other.
  - unfold readable_step at 1. rewrite Ht.
    rewrite readable_fold_get_other, Hget, Hnum.
    + apply DictFacts.get_set_same.
    + intros n Hn. apply Hsrc. rewrite Hkeys. apply in_or_app. now left.
  - intros n Hn Heq. apply readable_name_inj in Heq. now subst n.
Qed.

Lemma formatter_overwrites_existing_readable_witness :
  Dict.get "time_readable" (add_readable_columns sample_clash_frame)
  = Some (ColDatetime [Some (mkCal (mkDate 1970 1 1) 0 0 0)]).
Proof.
  refine (formatter_overwrites_existing_readable sample_clash_frame "time"
            (ColInt [0]) eq_refl eq_refl eq_refl eq_refl _).
  intros n Hin. simpl in Hin.
  destruct Hin as [<- | [<- | []]]; discriminate.
Defined.

Lemma to_datetime_rows (c : column) : column_rows (to_datetime c) = column_rows c.
Proof.
  destruct c as [vs | vs | vs | vs | vs | src]; cbn [to_datetime];
    try reflexivity.
  - destruct (column_in_ns_range (ColInt vs)); cbn [column_rows];
      [apply length_map | reflexivity].
  - destruct (column_in_ns_range (ColFloat vs) && column_whole (ColFloat vs));
      cbn [column_rows]; [apply length_map | reflexivity].
  - cbn [column_rows]. apply length_map.
Qed.

Lemma frame_has_rows_get (n : nat) (df : frame) (k : string) (c : column) :
  frame_has_rows n df = true -> Dict.get k df = Some c -> column_rows c = n.
Proof.
  unfold frame_has_rows. induction df as [| [k0 c0] df IH]; [discriminate |].
  cbn [forallb Dict.get snd]. intros H Hget.
  apply andb_true_iff in H. destruct H as [H0 H].
  destruct (String.eqb k k0).
  - injection Hget as <-. now apply Nat.eqb_eq.
  - now apply IH.
Qed.

Lemma frame_has_rows_set (n : nat) (df : frame) (k : string) (c : column) :
  frame_has_rows n df = true -> column_rows c = n ->
  frame_has_rows n (Dict.set k c df) = true.
Proof.
  unfold frame_has_rows. intros H Hc.
  induction df as [| [k0 c0] df IH]; cbn [Dict.set forallb snd].
  - rewrite Hc, Nat.eqb_refl. reflexivity.
  - cbn [forallb snd] in H. apply andb_true_iff in H. destruct H as [H0 H].
    destruct (String.eqb k k0); cbn [forallb snd].
    + now rewrite Hc, Nat.eqb_refl, H.
    + now rewrite H0, IH.
Qed.

(** X24. When every column of the frame has [n] rows, so has every column
    of the formatted frame. *)
Theorem formatter_keeps_row_count (n : nat) (df : frame) :
  frame_has_rows n df = true ->
  frame_has_rows n (add_readable_columns df) = true.
Proof.
  unfold add_readable_columns. generalize (Dict.keys df) as names.
  intros names. revert df.
  induction names as [| name names IH]; intros df H; cbn [fold_left];
    [exact H |].
  apply IH. unfold readable_step.
  destruct (time_like name); [| exact H].
  destruct (Dict.get name df) as [c |] eqn:Hget; [| exact H].
  destruct (is_numeric_dtype c); [| exact H].
  apply frame_has_rows_set; [exact H |].
  rewrite to_datetime_rows. now apply (frame_has_rows_get n df name).
Qed.

Lemma formatter_keeps_row_count_witness :
  frame_has_rows 2 (add_readable_columns sample_gap_frame) = true.
Proof. exact (formatter_keeps_row_count 2 sample_gap_frame eq_refl). Defined.

(** ** The name of the file *)

Lemma ascii_lower_not_upper (c : ascii) : is_upper (ascii_lower c) = false.
Proof.
  destruct c as [[] [] [] [] [] [] [] []]; reflexivity.
Qed.

Lemma ascii_lower_space (c : ascii) :
  ascii_lower c = " "%char -> c = " "%char.
Proof.
  destruct c as [[] [] [] [] [] [] [] []]; intros H; try reflexivity;
    discriminate H.
Qed.

(** X25. The file name is the endpoint's name with as many characters,
    none of them a space or an upper-case ASCII letter, followed by an
    underscore, the time stamp and ".csv". *)
Theorem download_prefix_is_lower_snake (ep : endpoint) :
  String.length (download_prefix ep) = String.length (ep_name ep)
  /\ (forall c, In c (str_chars (download_prefix ep)) ->
      c <> " "%char /\ is_upper c = false)
  /\ (forall rt,
        download_name rt ep
        = (download_prefix ep ++ "_" ++ now_stamp rt ++ ".csv")%string).
Proof.
  unfold download_prefix. split; [| split; [| reflexivity]].
  - induction (ep_name ep) as [| c s IH]; simpl; [reflexivity | now rewrite IH].
  - induction (ep_name ep) as [| c0 s IH]; simpl; [contradiction |].
    intros c [<- | Hin]; [| now apply IH]. split.
    + intros H. apply ascii_lower_space in H.
      unfold space_to_underscore in H.
      destruct (Ascii.eqb_spec c0 " "%char); [discriminate H | contradiction].
    + apply ascii_lower_not_upper.
Qed.
